(** * NVIDIA vendor-API hooks (driver/ihv/nv/nvapi_hooks.cpp)

    A shallow embedding of the [NVHook] class: the interception of
    [nvapi_QueryInterface], the per-identifier local handlers, the two
    D3D11 device-creation entry points and the patch of the nvcodec
    dispatch table, followed by the properties established about them. *)

From Stdlib Require Import ZArith List Bool Lia Ascii String.
From stdpp Require Import base option strings gmap.

Local Open Scope Z_scope.

(** ** Pointers, statuses and constants *)

(** A data pointer or opaque handle is its address; [NULL] is address 0. *)
Definition ptr := Z.
Definition NULL : ptr := 0.

Definition HRESULT := Z.

(** [enum NVENCSTATUS] of the source. *)
Definition NVENCSTATUS := Z.
Definition NV_ENC_SUCCESS : NVENCSTATUS := 0.
Definition NV_ENC_ERR_INVALID_PTR : NVENCSTATUS := 6.

(** [enum NV_ENC_INPUT_RESOURCE_TYPE] of the source. *)
Definition NV_ENC_INPUT_RESOURCE_TYPE := Z.
Definition NV_ENC_INPUT_RESOURCE_TYPE_DIRECTX : NV_ENC_INPUT_RESOURCE_TYPE := 0x0.
Definition NV_ENC_INPUT_RESOURCE_TYPE_CUDADEVICEPTR : NV_ENC_INPUT_RESOURCE_TYPE := 0x1.
Definition NV_ENC_INPUT_RESOURCE_TYPE_CUDAARRAY : NV_ENC_INPUT_RESOURCE_TYPE := 0x2.
Definition NV_ENC_INPUT_RESOURCE_TYPE_OPENGL_TEX : NV_ENC_INPUT_RESOURCE_TYPE := 0x3.

(** Modelled from the spec: [NvAPI_Status] comes from official/nvapi/nvapi.h,
    which is not among the sources.  The hooks only ever produce the vendor's
    "invalid pointer" status themselves; every other status is whatever the
    real function returned, carried here by its numeric code. *)
Inductive NvAPI_Status : Type :=
  | NVAPI_OK
  | NVAPI_ERROR
  | NVAPI_INVALID_POINTER
  | NVAPI_STATUS (code : Z).

(** ** The identifier table [NVAPI_FUNCS] *)

(** The members declared by [HOOK_NVAPI]: one [HookedFunction] each, and one
    local [.._hook] handler each. *)
Inductive HookedFn : Type :=
  | NvAPI_D3D11_CreateDevice
  | NvAPI_D3D11_CreateDeviceAndSwapChain
  | NvAPI_D3D11_IsNvShaderExtnOpCodeSupported
  | NvAPI_D3D11_SetNvShaderExtnSlot
  | NvAPI_D3D11_SetNvShaderExtnSlotLocalThread
  | NvAPI_D3D12_IsNvShaderExtnOpCodeSupported
  | NvAPI_D3D12_SetNvShaderExtnSlotSpace
  | NvAPI_D3D12_SetNvShaderExtnSlotSpaceLocalThread.

#[global] Instance HookedFn_eq_dec : EqDecision HookedFn.
Proof. solve_decision. Defined.

(** A function pointer handed to the application: an address inside the
    vendor library (possibly [NULL]), the address [&fname_hook] of one of the
    local handlers, or [&NvEncodeAPIRegisterResource_hook]. *)
Inductive funcptr : Type :=
  | VendorFn (addr : ptr)
  | LocalHook (f : HookedFn)
  | RegisterResourceHook.

#[global] Instance funcptr_eq_dec : EqDecision funcptr.
Proof. solve_decision. Defined.

Definition is_null (p : funcptr) : bool :=
  match p with
  | VendorFn a => a =? NULL
  | _ => false
  end.

Inductive NVAPI_ENTRY : Type :=
  | HOOK_NVAPI (fname : HookedFn) (ID : Z)
  | WHITELIST_NVAPI (fname : string) (ID : Z).

Definition entry_ID (e : NVAPI_ENTRY) : Z :=
  match e with
  | HOOK_NVAPI _ ID => ID
  | WHITELIST_NVAPI _ ID => ID
  end.

Definition NVAPI_FUNCS : list NVAPI_ENTRY :=
  [ HOOK_NVAPI NvAPI_D3D11_CreateDevice 0x6a16d3a0;
    HOOK_NVAPI NvAPI_D3D11_CreateDeviceAndSwapChain 0xbb939ee5;
    HOOK_NVAPI NvAPI_D3D11_IsNvShaderExtnOpCodeSupported 0x5f68da40;
    HOOK_NVAPI NvAPI_D3D11_SetNvShaderExtnSlot 0x8e90bb9f;
    HOOK_NVAPI NvAPI_D3D11_SetNvShaderExtnSlotLocalThread 0x0e6482a0;
    HOOK_NVAPI NvAPI_D3D12_IsNvShaderExtnOpCodeSupported 0x3dfacec8;
    HOOK_NVAPI NvAPI_D3D12_SetNvShaderExtnSlotSpace 0xac2dfeb5;
    HOOK_NVAPI NvAPI_D3D12_SetNvShaderExtnSlotSpaceLocalThread 0x43d867c0;
    WHITELIST_NVAPI "NvAPI_Initialize" 0x0150e828;
    WHITELIST_NVAPI "NvAPI_Unload" 0xd22bdd7e;
    WHITELIST_NVAPI "NvAPI_GetErrorMessage" 0x6c2d048c;
    WHITELIST_NVAPI "NvAPI_GetInterfaceVersionString" 0x01053fa5 ].

(** The case labels of the [switch] in [nvapi_QueryInterface_hook]:
    [NVAPI_FUNCS()] followed by the three identifiers fetched inside
    [NvAPI_Initialize]. *)
Definition switch_cases : list NVAPI_ENTRY :=
  NVAPI_FUNCS ++
  [ WHITELIST_NVAPI "unknown_func" 0xad298d3f;
    WHITELIST_NVAPI "unknown_func" 0x33c7358c;
    WHITELIST_NVAPI "unknown_func" 0x593e8644 ].

(** [switch(ID)]: the case whose label is [ID], if any. *)
Definition switch_on (ID : Z) : option NVAPI_ENTRY :=
  List.find (fun e => entry_ID e =? ID) switch_cases.

Definition hook_set : list Z :=
  omap (fun e => match e with HOOK_NVAPI _ ID => Some ID | _ => None end) switch_cases.

Definition always_allow_set : list Z :=
  omap (fun e => match e with WHITELIST_NVAPI _ ID => Some ID | _ => None end) switch_cases.

(** ** The nvcodec structures *)

(** [struct NV_ENC_REGISTER_RESOURCE]; [rr_more] stands for the data that
    follows [resourceToRegister], which the source does not declare. *)
Record NV_ENC_REGISTER_RESOURCE : Type := mkRegisterResource {
  rr_version : Z;
  resourceType : NV_ENC_INPUT_RESOURCE_TYPE;
  rr_dummy : list Z;
  resourceToRegister : ptr;
  rr_more : list Z
}.

(** [struct NV_ENCODE_API_FUNCTION_LIST]; [fl_more] stands for the data that
    follows [nvEncRegisterResource]. *)
Record NV_ENCODE_API_FUNCTION_LIST : Type := mkFunctionList {
  fl_version : Z;
  fl_reserved : Z;
  otherFunctions : list ptr;
  nvEncRegisterResource : funcptr;
  fl_more : list Z
}.

(** ** Diagnostics and calls into the encoder library *)

Inductive LogEvent : Type :=
  | RDCDEBUG_allowed (real : ptr) (name : string)
  | RDCWARN_disabled (name : string)
  | RDCWARN_version (version expectedVersion : Z)
  | RDCERR_unhooked
  | RDCERR_unwrap (origHandle : ptr)
  | RDCASSERT_failed (what : string)
  | CALL_nvEncRegisterResource
      (fn : funcptr) (encoder : ptr) (params : option NV_ENC_REGISTER_RESOURCE)
  | CALL_NvEncodeAPICreateInstance (functions : option NV_ENCODE_API_FUNCTION_LIST).

(** [StringFormat::Fmt("0x%x", ID)] for a 32-bit [ID]: lower-case
    hexadecimal without leading zeros. *)
Definition hex_digit (d : Z) : ascii :=
  match String.get (Z.to_nat d) "0123456789abcdef" with
  | Some c => c
  | None => "?"%char
  end.

Fixpoint hex_digits (fuel : nat) (n : Z) (acc : string) : string :=
  match fuel with
  | O => acc
  | S k =>
      let acc' := String (hex_digit (n mod 16)) acc in
      if n / 16 =? 0 then acc' else hex_digits k (n / 16) acc'
  end.

Definition Fmt_0x (ID : Z) : string := ("0x" ++ hex_digits 8 ID "")%string.

(** ** The singleton [NVHook::nvhooks] *)

(** [nvapi_lookup] maps an identifier to a [const char *], which may be null.
    [orig_funcptr f] is the slot of the [HookedFunction] member [f].
    [count] is the function-local static of [nvapi_QueryInterface_hook]. *)
Record NVHook : Type := mkNVHook {
  nvapi_lookup : gmap Z (option string);
  orig_funcptr : HookedFn -> ptr;
  real_nvEncRegisterResource : funcptr;
  count : Z
}.

Definition INT_MAX : Z := 2147483647.

(** A computation on the singleton: it may have no outcome ([None]), because
    it runs into undefined behaviour or into a call that never returns;
    otherwise it yields a value, the diagnostics it emitted and the new
    state. *)
Definition M (A : Type) : Type := NVHook -> option (A * list LogEvent * NVHook).

Definition ret {A} (a : A) : M A := fun s => Some (a, [], s).

Definition bind {A B} (m : M A) (k : A -> M B) : M B :=
  fun s =>
    match m s with
    | None => None
    | Some (a, l1, s1) =>
        match k a s1 with
        | None => None
        | Some (b, l2, s2) => Some (b, l1 ++ l2, s2)
        end
    end.

Declare Scope hook_scope.
Delimit Scope hook_scope with hook.
Notation "'do' x <- m ; k" := (bind m (fun x => k))
  (at level 10, x name, m at level 100, k at level 200) : hook_scope.
Notation "'run' m ; k" := (bind m (fun _ => k))
  (at level 10, m at level 100, k at level 200) : hook_scope.

Definition emit (e : LogEvent) : M unit := fun s => Some (tt, [e], s).
Definition get : M NVHook := fun s => Some (s, [], s).
Definition undefined_behaviour {A} : M A := fun _ => None.
Definition never_returns {A} : M A := fun _ => None.
Definition when (b : bool) (m : M unit) : M unit := if b then m else ret tt.

(** Modelled from the spec: [HookedFunction<T>] lives in hooks/hooks.h, which
    is not among the sources.  The spec (4.1, step 2) has the hook "record
    the just-obtained real pointer for that identifier (first time only)":
    [SetFuncPtr(real)] stores [real] in the member's slot while the slot is
    still null and leaves a slot that already holds a pointer as it is;
    [operator()] reads the slot back. *)
Definition SetFuncPtr (fname : HookedFn) (real : ptr) : M unit :=
  fun s =>
    Some (tt, [],
          mkNVHook (nvapi_lookup s)
                   (fun g => if decide (g = fname)
                             then (if orig_funcptr s fname =? NULL then real
                                   else orig_funcptr s fname)
                             else orig_funcptr s g)
                   (real_nvEncRegisterResource s)
                   (count s)).

(** [nvhooks.nvapi_lookup[ID]]: [operator[]] of [std::unordered_map] inserts a
    value-initialised (null) entry when the key is absent. *)
Definition nvapi_lookup_at (ID : Z) : M (option string) :=
  fun s =>
    match nvapi_lookup s !! ID with
    | Some cname => Some (cname, [], s)
    | None =>
        Some (None, [],
              mkNVHook (<[ID := None]> (nvapi_lookup s))
                       (orig_funcptr s)
                       (real_nvEncRegisterResource s)
                       (count s))
    end.

(** [count++] on an [int]: incrementing [INT_MAX] is undefined. *)
Definition count_incr : M unit :=
  fun s =>
    if count s <? INT_MAX then
      Some (tt, [],
            mkNVHook (nvapi_lookup s) (orig_funcptr s)
                     (real_nvEncRegisterResource s) (count s + 1))
    else undefined_behaviour s.

(** One row of the vendor's static [nvapi_interface_table]. *)
Record NVAPI_INTERFACE_TABLE : Type := mkIface {
  iface_func : string;
  iface_id : Z
}.

(** The state [RegisterHooks] leaves behind: the ID -> name map is filled in
    table order, so a later row with the same id replaces an earlier one. *)
Definition RegisterHooks (nvapi_interface_table : list NVAPI_INTERFACE_TABLE) : NVHook :=
  mkNVHook
    (fold_left (fun m iface => <[iface_id iface := Some (iface_func iface)]> m)
               nvapi_interface_table ∅)
    (fun _ => NULL)
    (VendorFn NULL)
    0.

(** ** [nvapi_QueryInterface_hook] *)

Section QueryInterface.
Local Open Scope hook_scope.

(** [real_QueryInterface] is [nvhooks.nvapi_QueryInterface()], the vendor's
    resolver as it answers at this call; [IsVendorExtensionEnabled] is
    [RenderDoc::Inst().IsVendorExtensionEnabled(VendorExtensions::NvAPI)]. *)
Definition nvapi_QueryInterface_hook
    (real_QueryInterface : Z -> ptr) (IsVendorExtensionEnabled : bool)
    (ID : Z) : M funcptr :=
  let real := real_QueryInterface ID in
  if real =? NULL then ret (VendorFn real)
  else
    match switch_on ID with
    | Some (HOOK_NVAPI fname _) =>
        run SetFuncPtr fname real;
        ret (LocalHook fname)
    | Some (WHITELIST_NVAPI _ _) => ret (VendorFn real)
    | None =>
        do cname <- nvapi_lookup_at ID;
        let name := match cname with Some c => c | None => Fmt_0x ID end in
        if IsVendorExtensionEnabled then
          run emit (RDCDEBUG_allowed real name);
          ret (VendorFn real)
        else
          do s <- get;
          run when (count s <? 10) (emit (RDCWARN_disabled name));
          run count_incr;
          ret (VendorFn NULL)
    end.
End QueryInterface.


(** ** Wrapped devices *)

(** A real (vendor) device object: its identity and whether it answers a
    query for [ID3D12Device]. *)
Record RealDevice : Type := mkRealDevice {
  obj_addr : ptr;
  exposes_ID3D12Device : bool
}.

(** One [SetShaderExtUAV(space, reg, global)] assignment. *)
Record ShaderExtUAV : Type := mkShaderExtUAV {
  uav_space : Z;
  uav_slot : Z;
  uav_global : bool
}.

(** Modelled from the spec: [INVAPID3DDevice] is declared in nvapi_wrapper.h,
    which is not among the sources.  A wrapper object carries its real,
    unwrapped counterpart ([GetReal]) and the side-channel state on which
    [SetShaderExtUAV] records the slot, the space and the global/thread-local
    tag of the latest assignment. *)
Record INVAPID3DDevice : Type := mkWrapper {
  GetReal : RealDevice;
  shader_ext : option ShaderExtUAV
}.

Definition SetShaderExtUAV (space slot : Z) (global : bool)
    (dev : INVAPID3DDevice) : INVAPID3DDevice :=
  mkWrapper (GetReal dev) (Some (mkShaderExtUAV space slot global)).

(** What an [IUnknown *] received from the application points to: one of the
    tool's own wrapped devices, or an object it knows nothing about. *)
Inductive IUnknown : Type :=
  | OurWrapper (w : INVAPID3DDevice)
  | Foreign (obj : RealDevice).

(** [pDev->QueryInterface(__uuidof(INVAPID3DDevice), &nvapiDev)]: "this will
    only succeed if it's our own wrapped device.  It doesn't change the
    refcount".  [Some] stands for [SUCCEEDED(hr)]. *)
Definition QueryInterface_INVAPID3DDevice (pDev : IUnknown) : option INVAPID3DDevice :=
  match pDev with
  | OurWrapper w => Some w
  | Foreign _ => None
  end.

(** What the vendor side observes of a handler. *)
Inductive VendorEvent : Type :=
  | AddRef (obj : RealDevice)
  | Release (obj : RealDevice)
  | CALL (fname : HookedFn) (dev : RealDevice) (args : list Z).

(** [real->QueryInterface(__uuidof(ID3D12Device), &dev)]: an ordinary COM
    query, which takes a reference when it succeeds. *)
Definition QueryInterface_ID3D12Device (real : RealDevice)
    : option RealDevice * list VendorEvent :=
  if exposes_ID3D12Device real then (Some real, [AddRef real]) else (None, []).

Definition UINT_MAX : Z := 0xFFFFFFFF.

(** ** The capability-query and slot-assignment handlers *)

(** The real [..IsNvShaderExtnOpCodeSupported]: its status, and the content of
    [*pSupported] after it returned (read only when [pSupported] is non-null). *)
Definition PFN_IsNvShaderExtnOpCodeSupported : Type :=
  RealDevice -> Z -> option bool -> NvAPI_Status * bool.

Definition PFN_SetNvShaderExtnSlot : Type := RealDevice -> Z -> NvAPI_Status.
Definition PFN_SetNvShaderExtnSlotSpace : Type := RealDevice -> Z -> Z -> NvAPI_Status.

(** The result of a capability-query handler. *)
Record QueryResult : Type := mkQueryResult {
  q_status : NvAPI_Status;
  q_supported : option bool;
  q_dev : IUnknown;
  q_trace : list VendorEvent
}.

(** The result of a slot-assignment handler. *)
Record SlotResult : Type := mkSlotResult {
  s_status : NvAPI_Status;
  s_dev : IUnknown;
  s_trace : list VendorEvent
}.

Section Handlers.
(** [SupportedOpcode] is declared in nvapi_wrapper.h; it is the tool's own
    predicate on opcodes. *)
Variable SupportedOpcode : Z -> bool.

Definition NvAPI_D3D11_IsNvShaderExtnOpCodeSupported_hook
    (real_fn : PFN_IsNvShaderExtnOpCodeSupported)
    (pDev : IUnknown) (opCode : Z) (pSupported : option bool) : QueryResult :=
  match QueryInterface_INVAPID3DDevice pDev with
  | Some nvapiDev =>
      let '(ret, written) := real_fn (GetReal nvapiDev) opCode pSupported in
      let pSupported1 := (fun _ => written) <$> pSupported in
      let pSupported2 := (fun b => b && SupportedOpcode opCode) <$> pSupported1 in
      mkQueryResult ret pSupported2 pDev
        [CALL NvAPI_D3D11_IsNvShaderExtnOpCodeSupported (GetReal nvapiDev) [opCode]]
  | None => mkQueryResult NVAPI_INVALID_POINTER pSupported pDev []
  end.

Definition NvAPI_D3D12_IsNvShaderExtnOpCodeSupported_hook
    (real_fn : PFN_IsNvShaderExtnOpCodeSupported)
    (pDev : IUnknown) (opCode : Z) (pSupported : option bool) : QueryResult :=
  match QueryInterface_INVAPID3DDevice pDev with
  | Some nvapiDev =>
      let real := GetReal nvapiDev in
      match QueryInterface_ID3D12Device real with
      | (Some dev, t1) =>
          let '(ret, written) := real_fn dev opCode pSupported in
          let pSupported1 := (fun _ => written) <$> pSupported in
          let pSupported2 := (fun b => b && SupportedOpcode opCode) <$> pSupported1 in
          mkQueryResult ret pSupported2 pDev
            (t1 ++ [CALL NvAPI_D3D12_IsNvShaderExtnOpCodeSupported dev [opCode];
                    Release dev])
      | (None, t1) => mkQueryResult NVAPI_INVALID_POINTER pSupported pDev t1
      end
  | None => mkQueryResult NVAPI_INVALID_POINTER pSupported pDev []
  end.
End Handlers.

Definition NvAPI_D3D11_SetNvShaderExtnSlot_hook
    (real_fn : PFN_SetNvShaderExtnSlot) (pDev : IUnknown) (uavSlot : Z) : SlotResult :=
  match QueryInterface_INVAPID3DDevice pDev with
  | Some nvapiDev =>
      let ret := real_fn (GetReal nvapiDev) uavSlot in
      mkSlotResult ret (OurWrapper (SetShaderExtUAV UINT_MAX uavSlot true nvapiDev))
        [CALL NvAPI_D3D11_SetNvShaderExtnSlot (GetReal nvapiDev) [uavSlot]]
  | None => mkSlotResult NVAPI_INVALID_POINTER pDev []
  end.

Definition NvAPI_D3D11_SetNvShaderExtnSlotLocalThread_hook
    (real_fn : PFN_SetNvShaderExtnSlot) (pDev : IUnknown) (uavSlot : Z) : SlotResult :=
  match QueryInterface_INVAPID3DDevice pDev with
  | Some nvapiDev =>
      let ret := real_fn (GetReal nvapiDev) uavSlot in
      mkSlotResult ret (OurWrapper (SetShaderExtUAV UINT_MAX uavSlot false nvapiDev))
        [CALL NvAPI_D3D11_SetNvShaderExtnSlotLocalThread (GetReal nvapiDev) [uavSlot]]
  | None => mkSlotResult NVAPI_INVALID_POINTER pDev []
  end.

Definition NvAPI_D3D12_SetNvShaderExtnSlotSpace_hook
    (real_fn : PFN_SetNvShaderExtnSlotSpace)
    (pDev : IUnknown) (uavSlot uavSpace : Z) : SlotResult :=
  match QueryInterface_INVAPID3DDevice pDev with
  | Some nvapiDev =>
      let ret := real_fn (GetReal nvapiDev) uavSlot uavSpace in
      mkSlotResult ret (OurWrapper (SetShaderExtUAV uavSpace uavSlot true nvapiDev))
        [CALL NvAPI_D3D12_SetNvShaderExtnSlotSpace (GetReal nvapiDev) [uavSlot; uavSpace]]
  | None => mkSlotResult NVAPI_INVALID_POINTER pDev []
  end.

Definition NvAPI_D3D12_SetNvShaderExtnSlotSpaceLocalThread_hook
    (real_fn : PFN_SetNvShaderExtnSlotSpace)
    (pDev : IUnknown) (uavSlot uavSpace : Z) : SlotResult :=
  match QueryInterface_INVAPID3DDevice pDev with
  | Some nvapiDev =>
      let ret := real_fn (GetReal nvapiDev) uavSlot uavSpace in
      mkSlotResult ret (OurWrapper (SetShaderExtUAV uavSpace uavSlot false nvapiDev))
        [CALL NvAPI_D3D12_SetNvShaderExtnSlotSpaceLocalThread (GetReal nvapiDev)
              [uavSlot; uavSpace]]
  | None => mkSlotResult NVAPI_INVALID_POINTER pDev []
  end.

(** ** The two D3D11 device-creation entry points *)

(** The ten arguments both entry points share. *)
Record DeviceArgs : Type := mkDeviceArgs {
  pAdapter : ptr;
  DriverType : Z;
  Software : ptr;
  Flags : Z;
  pFeatureLevels : ptr;
  FeatureLevels : Z;
  SDKVersion : Z;
  ppDevice : ptr;
  pFeatureLevel : ptr;
  ppImmediateContext : ptr
}.

(** The two surface arguments of the richer entry point. *)
Record SwapChainArgs : Type := mkSwapChainArgs {
  pSwapChainDesc : ptr;
  ppSwapChain : ptr
}.

(** What reaches the vendor library, and failed assertions on the way. *)
Inductive CreateEvent : Type :=
  | CALL_NvAPI_D3D11_CreateDevice (args : DeviceArgs) (outNVLevel : ptr)
  | CALL_NvAPI_D3D11_CreateDeviceAndSwapChain
      (args : DeviceArgs) (swap : SwapChainArgs) (outNVLevel : ptr)
  | RDCASSERT_swapchain_failed.

(** [RealD3D11CreateFunction]: the delegate that routes the call out to the
    real function. *)
Definition RealD3D11CreateFunction : Type :=
  DeviceArgs -> SwapChainArgs -> HRESULT * list CreateEvent.

(** Modelled from the spec: [CreateD3D11_Internal] is defined with the D3D11
    hooks (driver/d3d11/d3d11_hooks.h declares it), not among the sources.
    It is the one internal creation routine, parameterised by all arguments
    of the richer entry point and by the delegate that reaches the real
    vendor implementation; it hands the delegate the surface arguments it
    was given and never requests a surface when none was asked for. *)
Definition CreateD3D11_Internal (real : RealD3D11CreateFunction)
    (args : DeviceArgs) (swap : SwapChainArgs) : HRESULT * list CreateEvent :=
  real args swap.

Definition NvAPI_D3D11_CreateDevice_hook
    (real_fn : DeviceArgs -> ptr -> HRESULT)
    (args : DeviceArgs) (outNVLevel : ptr) : HRESULT * list CreateEvent :=
  CreateD3D11_Internal
    (fun args' swap' =>
       let asserted :=
         if (pSwapChainDesc swap' =? NULL) && (ppSwapChain swap' =? NULL)
         then [] else [RDCASSERT_swapchain_failed] in
       (real_fn args' outNVLevel,
        asserted ++ [CALL_NvAPI_D3D11_CreateDevice args' outNVLevel]))
    args (mkSwapChainArgs NULL NULL).

Definition NvAPI_D3D11_CreateDeviceAndSwapChain_hook
    (real_fn : DeviceArgs -> SwapChainArgs -> ptr -> HRESULT)
    (args : DeviceArgs) (swap : SwapChainArgs) (outNVLevel : ptr)
    : HRESULT * list CreateEvent :=
  CreateD3D11_Internal
    (fun args' swap' =>
       (real_fn args' swap' outNVLevel,
        [CALL_NvAPI_D3D11_CreateDeviceAndSwapChain args' swap' outNVLevel]))
    args swap.

(** ** The nvcodec dispatch-table patch *)

(** A function of the encoder library taking a pointer to a structure [T]:
    the status it returns, and what it leaves in the structure when the
    pointer is non-null. *)
Record VendorCall (A T : Type) : Type := mkVendorCall {
  vc_status : A -> option T -> NVENCSTATUS;
  vc_writes : A -> T -> T
}.
Arguments mkVendorCall {A T} _ _.
Arguments vc_status {A T} _ _ _.
Arguments vc_writes {A T} _ _ _.

Definition set_resourceToRegister (p : NV_ENC_REGISTER_RESOURCE) (h : ptr)
    : NV_ENC_REGISTER_RESOURCE :=
  mkRegisterResource (rr_version p) (resourceType p) (rr_dummy p) h (rr_more p).

Definition set_nvEncRegisterResource (f : NV_ENCODE_API_FUNCTION_LIST) (fn : funcptr)
    : NV_ENCODE_API_FUNCTION_LIST :=
  mkFunctionList (fl_version f) (fl_reserved f) (otherFunctions f) fn (fl_more f).

Definition set_real_nvEncRegisterResource (fn : funcptr) : M unit :=
  fun s =>
    Some (tt, [],
          mkNVHook (nvapi_lookup s) (orig_funcptr s) fn (count s)).

(** [7 << 28 | 8 << 1 | 1 << 24 | 2 << 16] *)
Definition expectedVersion : Z :=
  Z.lor (Z.lor (Z.lor (Z.shiftl 7 28) (Z.shiftl 8 1)) (Z.shiftl 1 24)) (Z.shiftl 2 16).

Section Encoder.
Local Open Scope hook_scope.

(** What the code behind a [PNVENCREGISTERRESOURCE] pointer does. *)
Variable vendor : funcptr -> VendorCall ptr NV_ENC_REGISTER_RESOURCE.

(** [ID3D11Resource *UnwrapDXResource(void *dxObject)], defined elsewhere. *)
Variable UnwrapDXResource : ptr -> ptr.

(** [nvhooks.real_nvEncRegisterResource(encoder, params)]: a call through
    the captured pointer.  A pointer into the encoder library runs the
    vendor's code.  When the captured pointer is
    [&NvEncodeAPIRegisterResource_hook] itself, the call enters the handler
    again, which makes the same call again, without end.  The address of one
    of the NvAPI handlers is not a registration function at all. *)
Definition call_real_nvEncRegisterResource
    (encoder : ptr) (params : option NV_ENC_REGISTER_RESOURCE)
    : M (NVENCSTATUS * option NV_ENC_REGISTER_RESOURCE) :=
  do s <- get;
  match real_nvEncRegisterResource s with
  | VendorFn addr =>
      let fn := VendorFn addr in
      run emit (CALL_nvEncRegisterResource fn encoder params);
      ret (vc_status (vendor fn) encoder params,
           vc_writes (vendor fn) encoder <$> params)
  | RegisterResourceHook => never_returns
  | LocalHook _ => undefined_behaviour
  end.

Definition NvEncodeAPIRegisterResource_hook
    (encoder : ptr) (params : option NV_ENC_REGISTER_RESOURCE)
    : M (NVENCSTATUS * option NV_ENC_REGISTER_RESOURCE) :=
  do s <- get;
  if is_null (real_nvEncRegisterResource s) then
    run emit RDCERR_unhooked;
    ret (NV_ENC_ERR_INVALID_PTR, params)
  else
    match params with
    | None => call_real_nvEncRegisterResource encoder params
    | Some p =>
        if (encoder =? NULL)
           || negb (resourceType p =? NV_ENC_INPUT_RESOURCE_TYPE_DIRECTX)
        then call_real_nvEncRegisterResource encoder params
        else
          let origHandle := resourceToRegister p in
          let p1 := set_resourceToRegister p (UnwrapDXResource origHandle) in
          do p2 <- (if resourceToRegister p1 =? NULL then
                      run emit (RDCERR_unwrap origHandle);
                      ret (set_resourceToRegister p1 origHandle)
                    else ret p1);
          do r <- call_real_nvEncRegisterResource encoder (Some p2);
          ret (fst r, (fun p3 => set_resourceToRegister p3 origHandle) <$> snd r)
    end.

(** [real_create] is [nvhooks.NvEncodeCreate()], the real initializer. *)
Definition NvEncodeAPICreateInstance_hook
    (real_create : VendorCall unit NV_ENCODE_API_FUNCTION_LIST)
    (functions : option NV_ENCODE_API_FUNCTION_LIST)
    : M (NVENCSTATUS * option NV_ENCODE_API_FUNCTION_LIST) :=
  run emit (CALL_NvEncodeAPICreateInstance functions);
  let ret_ := vc_status real_create tt functions in
  match vc_writes real_create tt <$> functions with
  | Some f =>
      if (ret_ =? NV_ENC_SUCCESS) && negb (is_null (nvEncRegisterResource f)) then
        run when (negb (fl_version f =? expectedVersion))
              (emit (RDCWARN_version (fl_version f) expectedVersion));
        do s <- get;
        run when (negb (is_null (real_nvEncRegisterResource s)
                      || bool_decide (real_nvEncRegisterResource s
                                      = nvEncRegisterResource f)))
              (emit (RDCASSERT_failed "real_nvEncRegisterResource"));
        run set_real_nvEncRegisterResource (nvEncRegisterResource f);
        ret (ret_, Some (set_nvEncRegisterResource f RegisterResourceHook))
      else ret (ret_, Some f)
  | None => ret (ret_, None)
  end.
End Encoder.

(** ** Sequences of resolutions *)

(** One call of the application into [nvapi_QueryInterface]: the identifier
    it asks for, how the vendor's resolver answers at that moment, and the
    value of the policy flag at that moment. *)
Record Resolution : Type := mkResolution {
  res_ID : Z;
  res_resolver : Z -> ptr;
  res_enabled : bool
}.

Definition resolve (q : Resolution) : M funcptr :=
  nvapi_QueryInterface_hook (res_resolver q) (res_enabled q) (res_ID q).

(** Runs the calls in order on the singleton, keeping for each call the
    pointer it returned and the diagnostics it emitted. *)
Fixpoint resolve_all (qs : list Resolution) (s : NVHook)
    : option (list (funcptr * list LogEvent) * NVHook) :=
  match qs with
  | [] => Some ([], s)
  | q :: qs' =>
      match resolve q s with
      | None => None
      | Some (p, l, s1) =>
          match resolve_all qs' s1 with
          | None => None
          | Some (rs, s2) => Some ((p, l) :: rs, s2)
          end
      end
  end.

(** A denial: the vendor knows the identifier, the hook answers null. *)
Definition denied (q : Resolution) : bool :=
  negb (res_resolver q (res_ID q) =? NULL).

Fixpoint denials (qs : list Resolution) : Z :=
  match qs with
  | [] => 0
  | q :: qs' => (if denied q then 1 else 0) + denials qs'
  end.

(** The name the diagnostics use for [ID]: the one of the lookup table when
    it has one, else the identifier in hexadecimal. *)
Definition display_name (s : NVHook) (ID : Z) : string :=
  match nvapi_lookup s !! ID with
  | Some (Some cname) => cname
  | _ => Fmt_0x ID
  end.

(** An identifier outside both hard-coded sets, asked for while the policy
    flag is off. *)
Definition unrecognized_disabled (q : Resolution) : Prop :=
  ~ In (res_ID q) hook_set /\ ~ In (res_ID q) always_allow_set
  /\ res_enabled q = false.

(** ** Notions used by the further properties *)

(** The row of [nvapi_interface_table] whose name [RegisterHooks] leaves in
    the lookup map for [id]: the last row with that id. *)
Fixpoint last_row (table : list NVAPI_INTERFACE_TABLE) (id : Z)
    : option NVAPI_INTERFACE_TABLE :=
  match table with
  | [] => None
  | r :: table' =>
      match last_row table' id with
      | Some r' => Some r'
      | None => if iface_id r =? id then Some r else None
      end
  end.

(** The singleton once [nvhooks.nvapi_lookup[ID]] has been evaluated. *)
Definition lookup_touched (ID : Z) (s : NVHook) : NVHook :=
  match nvapi_lookup s !! ID with
  | Some _ => s
  | None =>
      mkNVHook (<[ID := None]> (nvapi_lookup s)) (orig_funcptr s)
               (real_nvEncRegisterResource s) (count s)
  end.

(** A resolution that ends in the "disabled" branch of the policy: the
    vendor knows the identifier, no case label matches it, the flag is off. *)
Definition policy_denial (q : Resolution) : bool :=
  negb (res_resolver q (res_ID q) =? NULL)
  && match switch_on (res_ID q) with
     | None => negb (res_enabled q)
     | Some _ => false
     end.

Fixpoint policy_denials (qs : list Resolution) : Z :=
  match qs with
  | [] => 0
  | q :: qs' => (if policy_denial q then 1 else 0) + policy_denials qs'
  end.

Definition is_warning (e : LogEvent) : bool :=
  match e with
  | RDCWARN_disabled _ => true
  | _ => false
  end.

Fixpoint count_warnings (l : list LogEvent) : Z :=
  match l with
  | [] => 0
  | e :: l' => (if is_warning e then 1 else 0) + count_warnings l'
  end.

(** The number of "NvAPI disabled" warnings a run emitted. *)
Fixpoint warnings (rs : list (funcptr * list LogEvent)) : Z :=
  match rs with
  | [] => 0
  | r :: rs' => count_warnings (snd r) + warnings rs'
  end.

(** The identifier [HOOK_NVAPI] pairs with a member in [NVAPI_FUNCS]. *)
Definition hooked_ID (fname : HookedFn) : Z :=
  match List.find (fun e => match e with
                            | HOOK_NVAPI g _ => bool_decide (g = fname)
                            | WHITELIST_NVAPI _ _ => false
                            end) NVAPI_FUNCS with
  | Some e => entry_ID e
  | None => 0
  end.

#[global] Instance RealDevice_eq_dec : EqDecision RealDevice.
Proof. solve_decision. Defined.

(** References taken minus references released on [obj] along a trace. *)
Fixpoint ref_delta (obj : RealDevice) (t : list VendorEvent) : Z :=
  match t with
  | [] => 0
  | AddRef o :: t' => (if bool_decide (o = obj) then 1 else 0) + ref_delta obj t'
  | Release o :: t' => ref_delta obj t' - (if bool_decide (o = obj) then 1 else 0)
  | CALL _ _ _ :: t' => ref_delta obj t'
  end.

(** The calls into the real registration function along a log. *)
Fixpoint register_calls (l : list LogEvent)
    : list (funcptr * ptr * option NV_ENC_REGISTER_RESOURCE) :=
  match l with
  | [] => []
  | CALL_nvEncRegisterResource fn encoder params :: l' =>
      (fn, encoder, params) :: register_calls l'
  | _ :: l' => register_calls l'
  end.

(** * Properties *)

Example Fmt_0x_ex :
  Fmt_0x 0xad298d3f = "0xad298d3f"%string /\ Fmt_0x 0x1f = "0x1f"%string
  /\ Fmt_0x 0 = "0x0"%string.
Proof. repeat split; reflexivity. Qed.

Example expectedVersion_value : expectedVersion = 0x71020010.
Proof. reflexivity. Qed.

(** ** The switch *)

Lemma switch_on_hooked fname ID :
  In (HOOK_NVAPI fname ID) NVAPI_FUNCS -> switch_on ID = Some (HOOK_NVAPI fname ID).
Proof.
  unfold NVAPI_FUNCS. cbn [In]. intros H.
  repeat (destruct H as [H | H]; [inversion H; subst; reflexivity || discriminate |]).
  destruct H.
Qed.

Lemma switch_on_allowed ID :
  In ID always_allow_set -> exists n, switch_on ID = Some (WHITELIST_NVAPI n ID).
Proof.
  intros H. vm_compute in H.
  repeat (destruct H as [H | H]; [subst ID; eexists; reflexivity |]).
  destruct H.
Qed.

Lemma switch_on_In ID e : switch_on ID = Some e -> In e switch_cases /\ entry_ID e = ID.
Proof.
  unfold switch_on. intros H. apply find_some in H as [Hin Heq].
  split; [exact Hin | lia].
Qed.

Lemma switch_on_unknown ID :
  ~ In ID hook_set -> ~ In ID always_allow_set -> switch_on ID = None.
Proof.
  intros Hh Ha. destruct (switch_on ID) as [e |] eqn:E; [| reflexivity].
  exfalso. apply switch_on_In in E as [Hin Hid].
  unfold switch_cases, NVAPI_FUNCS in Hin. cbn [In app] in Hin.
  repeat (destruct Hin as [Hin | Hin];
          [subst e; cbn in Hid; subst ID;
           first [apply Hh; vm_compute; tauto | apply Ha; vm_compute; tauto] |]).
  destruct Hin.
Qed.

(** ** Resolution of hooked and always-allowed identifiers *)

Lemma resolve_null real_QueryInterface enabled ID s :
  real_QueryInterface ID = NULL ->
  nvapi_QueryInterface_hook real_QueryInterface enabled ID s
  = Some (VendorFn NULL, [], s).
Proof.
  intros H. unfold nvapi_QueryInterface_hook. rewrite H. reflexivity.
Qed.

Lemma resolve_hooked fname ID real_QueryInterface enabled s :
  In (HOOK_NVAPI fname ID) NVAPI_FUNCS ->
  real_QueryInterface ID <> NULL ->
  nvapi_QueryInterface_hook real_QueryInterface enabled ID s
  = Some (LocalHook fname, [],
          mkNVHook (nvapi_lookup s)
                   (fun g => if decide (g = fname)
                             then (if orig_funcptr s fname =? NULL
                                   then real_QueryInterface ID
                                   else orig_funcptr s fname)
                             else orig_funcptr s g)
                   (real_nvEncRegisterResource s) (count s)).
Proof.
  intros Hin Hreal. unfold nvapi_QueryInterface_hook.
  apply Z.eqb_neq in Hreal. rewrite Hreal.
  rewrite (switch_on_hooked _ _ Hin). reflexivity.
Qed.

(** C2: for every identifier of the hook set, a null answer of the real
    resolver is returned as it is, with no handler substituted, nothing
    recorded and nothing logged; a non-null answer makes the hook return the
    address of the designated local handler, never the real pointer, and
    record the just-obtained real pointer in that member's slot the first
    time only, that is when the slot is still null, leaving every other slot
    alone; a second resolution of the same identifier, whatever the resolver
    answers then, leaves the captured pointer unchanged. *)
Theorem hooked_identifier_resolution fname ID real_QueryInterface enabled s :
  In (HOOK_NVAPI fname ID) NVAPI_FUNCS ->
  (real_QueryInterface ID = NULL ->
     nvapi_QueryInterface_hook real_QueryInterface enabled ID s
     = Some (VendorFn NULL, [], s))
  /\
  (real_QueryInterface ID <> NULL ->
     exists s1,
       nvapi_QueryInterface_hook real_QueryInterface enabled ID s
       = Some (LocalHook fname, [], s1)
       /\ LocalHook fname <> VendorFn (real_QueryInterface ID)
       /\ (orig_funcptr s fname = NULL -> orig_funcptr s1 fname = real_QueryInterface ID)
       /\ (orig_funcptr s fname <> NULL -> orig_funcptr s1 fname = orig_funcptr s fname)
       /\ (forall g, g <> fname -> orig_funcptr s1 g = orig_funcptr s g)
       /\ nvapi_lookup s1 = nvapi_lookup s
       /\ real_nvEncRegisterResource s1 = real_nvEncRegisterResource s
       /\ count s1 = count s
       /\ forall again enabled2,
            exists p s2,
              nvapi_QueryInterface_hook again enabled2 ID s1 = Some (p, [], s2)
              /\ (again ID <> NULL -> p = LocalHook fname)
              /\ forall g, orig_funcptr s2 g = orig_funcptr s1 g).
Proof.
  intros Hin. split.
  - apply resolve_null.
  - intros Hreal.
    rewrite (resolve_hooked _ _ _ enabled s Hin Hreal).
    eexists. split; [reflexivity |]. cbn [orig_funcptr nvapi_lookup
      real_nvEncRegisterResource count].
    destruct (decide (fname = fname)) as [_ | Hne]; [| congruence].
    repeat split; try discriminate.
    + intros ->. reflexivity.
    + intros Hcap. apply Z.eqb_neq in Hcap. rewrite Hcap. reflexivity.
    + intros g Hg. destruct (decide (g = fname)); congruence.
    + intros again enabled2.
      destruct (Z.eq_dec (again ID) NULL) as [Hnull | Hnn].
      * rewrite (resolve_null _ _ _ _ Hnull). do 2 eexists.
        split; [reflexivity |]. split; [contradiction | reflexivity].
      * rewrite (resolve_hooked _ _ _ enabled2 _ Hin Hnn).
        do 2 eexists. split; [reflexivity |]. split; [reflexivity |].
        cbn [orig_funcptr]. intros g.
        destruct (decide (g = fname)) as [-> | Hne]; [| reflexivity].
        destruct (decide (fname = fname)) as [_ | Hne]; [| congruence].
        destruct (orig_funcptr s fname =? NULL) eqn:E.
        -- apply Z.eqb_neq in Hreal. rewrite Hreal. reflexivity.
        -- rewrite E. reflexivity.
Qed.

Lemma hooked_identifier_resolution_witness :
  In (HOOK_NVAPI NvAPI_D3D11_SetNvShaderExtnSlot 0x8e90bb9f) NVAPI_FUNCS
  /\ exists s1,
       nvapi_QueryInterface_hook (fun _ => 0x7ff000) true 0x8e90bb9f (RegisterHooks [])
       = Some (LocalHook NvAPI_D3D11_SetNvShaderExtnSlot, [], s1)
       /\ orig_funcptr s1 NvAPI_D3D11_SetNvShaderExtnSlot = 0x7ff000
       /\ exists p s2,
            nvapi_QueryInterface_hook (fun _ => 0x8ff000) true 0x8e90bb9f s1
            = Some (p, [], s2)
            /\ orig_funcptr s2 NvAPI_D3D11_SetNvShaderExtnSlot = 0x7ff000.
Proof.
  assert (Hin : In (HOOK_NVAPI NvAPI_D3D11_SetNvShaderExtnSlot 0x8e90bb9f) NVAPI_FUNCS)
    by (simpl; tauto).
  split; [exact Hin |].
  destruct (hooked_identifier_resolution NvAPI_D3D11_SetNvShaderExtnSlot 0x8e90bb9f
              (fun _ => 0x7ff000) true (RegisterHooks []) Hin) as [_ H].
  destruct H as (s1 & E & _ & Hcap & _ & _ & _ & _ & _ & Hagain); [unfold NULL; lia |].
  exists s1. split; [exact E |]. split; [exact (Hcap eq_refl) |].
  destruct (Hagain (fun _ => 0x8ff000) true) as (p & s2 & E2 & _ & Hsame).
  exists p, s2. split; [exact E2 |].
  rewrite Hsame. exact (Hcap eq_refl).
Defined.

(** C3: for every identifier of the always-allow set, a non-null answer of
    the real resolver is returned exactly as it is, whatever the value of the
    policy flag; nothing is recorded and nothing is logged. *)
Theorem always_allowed_identifier_passes_through ID real_QueryInterface enabled s :
  In ID always_allow_set ->
  real_QueryInterface ID <> NULL ->
  nvapi_QueryInterface_hook real_QueryInterface enabled ID s
  = Some (VendorFn (real_QueryInterface ID), [], s).
Proof.
  intros Hin Hreal. unfold nvapi_QueryInterface_hook.
  apply Z.eqb_neq in Hreal. rewrite Hreal.
  destruct (switch_on_allowed _ Hin) as [n ->]. reflexivity.
Qed.

Lemma always_allowed_identifier_passes_through_witness :
  (In 0x0150e828 always_allow_set /\ In 0x593e8644 always_allow_set)
  /\ nvapi_QueryInterface_hook (fun _ => 0x7ff000) false 0x0150e828 (RegisterHooks [])
     = Some (VendorFn 0x7ff000, [], RegisterHooks [])
  /\ nvapi_QueryInterface_hook (fun _ => 0x7ff000) true 0x593e8644 (RegisterHooks [])
     = Some (VendorFn 0x7ff000, [], RegisterHooks []).
Proof.
  split; [split; vm_compute; tauto |].
  split.
  - apply (always_allowed_identifier_passes_through 0x0150e828 (fun _ => 0x7ff000) false);
      [vm_compute; tauto | unfold NULL; lia].
  - apply (always_allowed_identifier_passes_through 0x593e8644 (fun _ => 0x7ff000) true);
      [vm_compute; tauto | unfold NULL; lia].
Defined.

(** ** Denials of unrecognised identifiers *)

Lemma resolve_denied real_QueryInterface ID s :
  switch_on ID = None ->
  real_QueryInterface ID <> NULL ->
  count s < INT_MAX ->
  exists s1,
    nvapi_QueryInterface_hook real_QueryInterface false ID s
    = Some (VendorFn NULL,
            if count s <? 10 then [RDCWARN_disabled (display_name s ID)] else [],
            s1)
    /\ count s1 = count s + 1
    /\ orig_funcptr s1 = orig_funcptr s
    /\ forall ID', display_name s1 ID' = display_name s ID'.
Proof.
  intros Hsw Hreal Hcount. unfold nvapi_QueryInterface_hook.
  apply Z.eqb_neq in Hreal. rewrite Hreal, Hsw.
  apply Z.ltb_lt in Hcount.
  unfold bind, nvapi_lookup_at, get, when, count_incr, emit, ret, display_name.
  destruct (nvapi_lookup s !! ID) as [cname |] eqn:E; cbn -[INT_MAX Z.ltb].
  - destruct (count s <? 10); cbn -[INT_MAX Z.ltb]; rewrite Hcount; cbn;
      eexists; (split; [reflexivity |]); cbn; auto.
  - destruct (count s <? 10); cbn -[INT_MAX Z.ltb]; rewrite Hcount; cbn;
      eexists; (split; [reflexivity |]); cbn;
      (repeat split; auto); intros ID'; rewrite lookup_insert;
      destruct (decide (ID = ID')) as [<- |]; try reflexivity; rewrite E; reflexivity.
Qed.

Lemma resolve_all_denied qs :
  forall s,
    Forall unrecognized_disabled qs ->
    count s + denials qs <= INT_MAX ->
    exists rs s1,
      resolve_all qs s = Some (rs, s1)
      /\ count s1 = count s + denials qs
      /\ length rs = length qs
      /\ forall (i : nat) q,
           qs !! i = Some q ->
           rs !! i
           = Some (VendorFn NULL,
                   if denied q && (count s + denials (take i qs) <? 10)
                   then [RDCWARN_disabled (display_name s (res_ID q))] else []).
Proof.
  induction qs as [| q qs IH]; intros s Hall Hbound.
  - exists [], s. cbn. repeat split; try lia. intros i q H. destruct i; discriminate.
  - inversion Hall as [| ? ? Hq Hqs]; subst.
    destruct Hq as (Hh & Ha & Hen).
    assert (Hpos : 0 <= denials qs)
      by (clear; induction qs as [| x l IHl]; cbn; [lia | destruct (denied x); lia]).
    cbn [denials] in Hbound. cbn [resolve_all]. unfold resolve. rewrite Hen.
    destruct (denied q) eqn:Hd.
    + assert (Hreal : res_resolver q (res_ID q) <> NULL)
        by (unfold denied in Hd; apply negb_true_iff, Z.eqb_neq in Hd; exact Hd).
      destruct (resolve_denied (res_resolver q) (res_ID q) s
                  (switch_on_unknown _ Hh Ha) Hreal) as (s1 & E & Hc & _ & Hn); [lia |].
      rewrite E.
      destruct (IH s1 Hqs) as (rs & s2 & E2 & Hc2 & Hlen & Hidx); [lia |].
      rewrite E2. do 2 eexists. split; [reflexivity |].
      split; [cbn [denials]; rewrite Hd; lia |].
      split; [cbn; lia |].
      intros [| i] q' Hq'.
      * cbn in Hq'. inversion Hq'; subst q'. cbn. rewrite Hd, Z.add_0_r. reflexivity.
      * cbn in Hq'. cbn [take denials]. rewrite Hd.
        rewrite lookup_cons, (Hidx i q' Hq'), Hc, Hn.
        replace (count s + 1 + denials (take i qs))
          with (count s + (1 + denials (take i qs))) by lia.
        reflexivity.
    + assert (Hreal : res_resolver q (res_ID q) = NULL)
        by (unfold denied in Hd; apply negb_false_iff, Z.eqb_eq in Hd; exact Hd).
      rewrite (resolve_null _ _ _ s Hreal).
      destruct (IH s Hqs) as (rs & s2 & E2 & Hc2 & Hlen & Hidx); [lia |].
      rewrite E2. do 2 eexists. split; [reflexivity |].
      split; [cbn [denials]; rewrite Hd; lia |].
      split; [cbn; lia |].
      intros [| i] q' Hq'.
      * cbn in Hq'. inversion Hq'; subst q'. cbn. rewrite Hd. reflexivity.
      * cbn in Hq'. cbn [take denials]. rewrite Hd.
        rewrite lookup_cons, (Hidx i q' Hq'). reflexivity.
Qed.

(** Past [INT_MAX] denials the counter has no defined next value. *)
Lemma count_overflow_undefined real_QueryInterface ID s :
  switch_on ID = None ->
  real_QueryInterface ID <> NULL ->
  count s = INT_MAX ->
  nvapi_QueryInterface_hook real_QueryInterface false ID s = None.
Proof.
  intros Hsw Hreal Hcount. unfold nvapi_QueryInterface_hook.
  apply Z.eqb_neq in Hreal. rewrite Hreal, Hsw.
  unfold bind, nvapi_lookup_at, get, when, count_incr, emit, ret.
  destruct (nvapi_lookup s !! ID); cbn -[INT_MAX Z.ltb];
    destruct (count s <? 10); cbn -[INT_MAX Z.ltb]; rewrite Hcount; reflexivity.
Qed.

(** Within the range of the [int] counter the rate limit holds: along every
    sequence of resolutions of identifiers outside both hard-coded sets with
    the policy flag off, started with the counter at 0 and with no more than
    [INT_MAX] denials, every resolution returns null; a resolution emits the
    warning exactly when it is a denial preceded by fewer than 10 denials, so
    the 11th and later denials emit nothing. *)
Theorem denial_warnings_rate_limited qs s :
  count s = 0 ->
  Forall unrecognized_disabled qs ->
  denials qs <= INT_MAX ->
  exists rs s1,
    resolve_all qs s = Some (rs, s1)
    /\ length rs = length qs
    /\ forall (i : nat) q,
         qs !! i = Some q ->
         rs !! i
         = Some (VendorFn NULL,
                 if denied q && (denials (take i qs) <? 10)
                 then [RDCWARN_disabled (display_name s (res_ID q))] else [])
         /\ (10 <= denials (take i qs) -> rs !! i = Some (VendorFn NULL, [])).
Proof.
  intros H0 Hall Hbound.
  destruct (resolve_all_denied qs s Hall) as (rs & s1 & E & _ & Hlen & Hidx); [lia |].
  exists rs, s1. split; [exact E |]. split; [exact Hlen |].
  intros i q Hq. specialize (Hidx i q Hq). rewrite H0, Z.add_0_l in Hidx.
  split; [exact Hidx |].
  intros Hten. rewrite Hidx.
  apply Z.ltb_ge in Hten. rewrite Hten, andb_false_r. reflexivity.
Qed.

Lemma denial_warnings_rate_limited_witness :
  let q := mkResolution 0x12345678 (fun _ => 0x7ff000) false in
  exists rs s1,
    resolve_all (replicate 12 q) (RegisterHooks []) = Some (rs, s1)
    /\ rs !! 9%nat = Some (VendorFn NULL, [RDCWARN_disabled "0x12345678"])
    /\ rs !! 10%nat = Some (VendorFn NULL, [])
    /\ rs !! 11%nat = Some (VendorFn NULL, []).
Proof.
  intros q.
  assert (Hq : unrecognized_disabled q).
  { repeat split; try reflexivity; intros H; vm_compute in H;
      repeat (destruct H as [H | H]; [discriminate H |]); exact H. }
  destruct (denial_warnings_rate_limited (replicate 12 q) (RegisterHooks []))
    as (rs & s1 & E & _ & Hidx).
  - reflexivity.
  - cbn [replicate]. repeat (constructor 2; [exact Hq |]). constructor 1.
  - vm_compute. discriminate.
  - exists rs, s1. split; [exact E |].
    split; [exact (proj1 (Hidx 9%nat q eq_refl)) |].
    split; [exact (proj1 (Hidx 10%nat q eq_refl)) |].
    exact (proj1 (Hidx 11%nat q eq_refl)).
Defined.

Lemma resolve_all_overflow qs :
  forall s,
    Forall unrecognized_disabled qs ->
    0 <= count s <= INT_MAX ->
    INT_MAX < count s + denials qs ->
    resolve_all qs s = None.
Proof.
  induction qs as [| q qs IH]; intros s Hall Hrange Hover.
  - cbn in Hover. lia.
  - inversion Hall as [| ? ? Hq Hqs]; subst.
    destruct Hq as (Hh & Ha & Hen).
    cbn [denials] in Hover. cbn [resolve_all]. unfold resolve. rewrite Hen.
    destruct (denied q) eqn:Hd.
    + assert (Hreal : res_resolver q (res_ID q) <> NULL)
        by (unfold denied in Hd; apply negb_true_iff, Z.eqb_neq in Hd; exact Hd).
      destruct (Z.eq_dec (count s) INT_MAX) as [Hmax | Hlt].
      * rewrite (count_overflow_undefined _ _ s (switch_on_unknown _ Hh Ha) Hreal Hmax).
        reflexivity.
      * destruct (resolve_denied (res_resolver q) (res_ID q) s
                    (switch_on_unknown _ Hh Ha) Hreal) as (s1 & E & Hc & _); [lia |].
        rewrite E, (IH s1 Hqs); [reflexivity | lia | lia].
    + assert (Hreal : res_resolver q (res_ID q) = NULL)
        by (unfold denied in Hd; apply negb_false_iff, Z.eqb_eq in Hd; exact Hd).
      rewrite (resolve_null _ _ _ s Hreal), (IH s Hqs); [reflexivity | lia | lia].
Qed.

Lemma denials_replicate n q :
  denials (replicate n q) = if denied q then Z.of_nat n else 0.
Proof.
  induction n as [| n IH]; [destruct (denied q); reflexivity |].
  change (replicate (S n) q) with (q :: replicate n q).
  cbn [denials]. rewrite IH. destruct (denied q); lia.
Qed.

(** C4: the code breaks the claim on a sequence of [INT_MAX + 1] denials of
    one identifier outside both hard-coded sets with the policy flag off.
    The counter is incremented on every denial, beyond the ten that are
    logged; the first [INT_MAX] denials leave it at [INT_MAX], and the next
    one executes [count++] on that value, a signed overflow: the resolution
    has no defined outcome, where the claim has it return null without a
    diagnostic. *)
Theorem rate_limit_counter_overflows :
  let q := mkResolution 0x12345678 (fun _ => 0x7ff000) false in
  let s0 := RegisterHooks [] in
  unrecognized_disabled q /\ denied q = true /\ count s0 = 0
  /\ (exists rs s1,
        resolve_all (replicate (Z.to_nat INT_MAX) q) s0 = Some (rs, s1)
        /\ count s1 = INT_MAX)
  /\ resolve_all (replicate (Z.to_nat (INT_MAX + 1)) q) s0 = None.
Proof.
  intros q s0.
  assert (Hq : unrecognized_disabled q).
  { repeat split; try reflexivity; intros H; vm_compute in H;
      repeat (destruct H as [H | H]; [discriminate H |]); exact H. }
  assert (Hd : denied q = true) by reflexivity.
  assert (H0 : count s0 = 0) by reflexivity.
  split; [exact Hq |]. split; [exact Hd |]. split; [exact H0 |].
  split.
  - assert (Hn : Z.of_nat (Z.to_nat INT_MAX) = INT_MAX)
      by (apply Z2Nat.id; unfold INT_MAX; lia).
    revert Hn. generalize (Z.to_nat INT_MAX). intros n Hn.
    destruct (resolve_all_denied (replicate n q) s0) as (rs & s1 & E & Hc & _).
    + apply Forall_replicate. exact Hq.
    + rewrite denials_replicate, Hd, H0. lia.
    + exists rs, s1. split; [exact E |].
      rewrite Hc, denials_replicate, Hd, H0. lia.
  - assert (Hn : Z.of_nat (Z.to_nat (INT_MAX + 1)) = INT_MAX + 1)
      by (apply Z2Nat.id; unfold INT_MAX; lia).
    revert Hn. generalize (Z.to_nat (INT_MAX + 1)). intros n Hn.
    apply resolve_all_overflow.
    + apply Forall_replicate. exact Hq.
    + rewrite H0. unfold INT_MAX. lia.
    + rewrite denials_replicate, Hd, H0. lia.
Qed.

(** ** Capability-query handlers *)

(** C1 (as amended): on a recognised wrapper device and with a non-null
    [pSupported], the D3D11 handler, and the D3D12 handler when the real
    object also exposes [ID3D12Device], delegate once to the real function
    with the real object, return its status, and report the conjunction of
    what the real function wrote and [SupportedOpcode opCode]: true when both
    are true, false in the other three combinations. *)
Theorem capability_query_reports_conjunction
    SupportedOpcode real_fn pDev nvapiDev opCode (before : bool) :
  QueryInterface_INVAPID3DDevice pDev = Some nvapiDev ->
  let real := GetReal nvapiDev in
  let ret := fst (real_fn real opCode (Some before)) in
  let written := snd (real_fn real opCode (Some before)) in
  (NvAPI_D3D11_IsNvShaderExtnOpCodeSupported_hook
     SupportedOpcode real_fn pDev opCode (Some before)
   = mkQueryResult ret (Some (written && SupportedOpcode opCode)) pDev
       [CALL NvAPI_D3D11_IsNvShaderExtnOpCodeSupported real [opCode]])
  /\ (exposes_ID3D12Device real = true ->
      NvAPI_D3D12_IsNvShaderExtnOpCodeSupported_hook
        SupportedOpcode real_fn pDev opCode (Some before)
      = mkQueryResult ret (Some (written && SupportedOpcode opCode)) pDev
          [AddRef real;
           CALL NvAPI_D3D12_IsNvShaderExtnOpCodeSupported real [opCode];
           Release real])
  /\ (written && SupportedOpcode opCode = true
      <-> written = true /\ SupportedOpcode opCode = true).
Proof.
  intros HQI real ret written. subst real ret written.
  unfold NvAPI_D3D11_IsNvShaderExtnOpCodeSupported_hook,
    NvAPI_D3D12_IsNvShaderExtnOpCodeSupported_hook, QueryInterface_ID3D12Device.
  rewrite HQI.
  destruct (real_fn (GetReal nvapiDev) opCode (Some before)) as [st w] eqn:E.
  cbn [fst snd]. split; [reflexivity |]. split.
  - intros ->. rewrite E. reflexivity.
  - apply andb_true_iff.
Qed.

Lemma capability_query_reports_conjunction_witness :
  let dev := mkRealDevice 0x100 true in
  let pDev := OurWrapper (mkWrapper dev None) in
  let real_fn : PFN_IsNvShaderExtnOpCodeSupported := fun _ _ _ => (NVAPI_OK, true) in
  let tool := fun opCode => opCode =? 7 in
  q_supported (NvAPI_D3D11_IsNvShaderExtnOpCodeSupported_hook tool real_fn pDev 7 (Some false))
  = Some true
  /\ q_supported (NvAPI_D3D12_IsNvShaderExtnOpCodeSupported_hook tool real_fn pDev 8 (Some true))
     = Some false
  /\ q_status (NvAPI_D3D12_IsNvShaderExtnOpCodeSupported_hook tool real_fn pDev 8 (Some true))
     = NVAPI_OK.
Proof.
  intros dev pDev real_fn tool.
  pose proof (capability_query_reports_conjunction tool real_fn pDev
                (mkWrapper dev None) 7 false eq_refl) as [H11 _].
  pose proof (capability_query_reports_conjunction tool real_fn pDev
                (mkWrapper dev None) 8 true eq_refl) as (_ & H12 & _).
  rewrite H11, (H12 eq_refl). repeat split.
Defined.

(** The claim C1 as stated fails for the D3D12 handler: on a recognised
    wrapper whose real object does not expose [ID3D12Device] nothing is
    delegated, [*pSupported] is left as it was and the status is the
    invalid-pointer one, although the real function would answer true and
    the tool supports the opcode. *)
Lemma d3d12_query_on_wrapper_without_d3d12_device :
  let nvapiDev := mkWrapper (mkRealDevice 0x100 false) None in
  let pDev := OurWrapper nvapiDev in
  let real_fn : PFN_IsNvShaderExtnOpCodeSupported := fun _ _ _ => (NVAPI_OK, true) in
  let tool := fun _ : Z => true in
  let r := NvAPI_D3D12_IsNvShaderExtnOpCodeSupported_hook tool real_fn pDev 1 (Some false) in
  QueryInterface_INVAPID3DDevice pDev = Some nvapiDev
  /\ q_supported r = Some false
  /\ q_supported r
     <> Some (snd (real_fn (GetReal nvapiDev) 1 (Some false)) && tool 1)
  /\ q_status r = NVAPI_INVALID_POINTER
  /\ q_status r <> fst (real_fn (GetReal nvapiDev) 1 (Some false))
  /\ q_trace r = [].
Proof. cbv zeta. cbn. repeat split; discriminate. Qed.

(** ** Slot-assignment handlers *)

(** C7: on a recognised wrapper device each of the four slot-assignment
    handlers delegates once to the real function with the real object,
    returns whatever status that call gave, and records on the wrapper the
    requested slot, the space (the requested one for the space-qualified
    variants, [~0U] for the D3D11 ones) and the tag (global for the plain
    variants, thread-local for the [LocalThread] ones), whatever the
    status. *)
Theorem slot_assignment_records_unconditionally
    pDev nvapiDev (real_slot : PFN_SetNvShaderExtnSlot)
    (real_space : PFN_SetNvShaderExtnSlotSpace) uavSlot uavSpace :
  QueryInterface_INVAPID3DDevice pDev = Some nvapiDev ->
  let real := GetReal nvapiDev in
  let recorded space global :=
    OurWrapper (mkWrapper real (Some (mkShaderExtUAV space uavSlot global))) in
  NvAPI_D3D11_SetNvShaderExtnSlot_hook real_slot pDev uavSlot
  = mkSlotResult (real_slot real uavSlot) (recorded UINT_MAX true)
      [CALL NvAPI_D3D11_SetNvShaderExtnSlot real [uavSlot]]
  /\ NvAPI_D3D11_SetNvShaderExtnSlotLocalThread_hook real_slot pDev uavSlot
     = mkSlotResult (real_slot real uavSlot) (recorded UINT_MAX false)
         [CALL NvAPI_D3D11_SetNvShaderExtnSlotLocalThread real [uavSlot]]
  /\ NvAPI_D3D12_SetNvShaderExtnSlotSpace_hook real_space pDev uavSlot uavSpace
     = mkSlotResult (real_space real uavSlot uavSpace) (recorded uavSpace true)
         [CALL NvAPI_D3D12_SetNvShaderExtnSlotSpace real [uavSlot; uavSpace]]
  /\ NvAPI_D3D12_SetNvShaderExtnSlotSpaceLocalThread_hook real_space pDev uavSlot uavSpace
     = mkSlotResult (real_space real uavSlot uavSpace) (recorded uavSpace false)
         [CALL NvAPI_D3D12_SetNvShaderExtnSlotSpaceLocalThread real [uavSlot; uavSpace]].
Proof.
  intros HQI real recorded. subst real recorded.
  unfold NvAPI_D3D11_SetNvShaderExtnSlot_hook,
    NvAPI_D3D11_SetNvShaderExtnSlotLocalThread_hook,
    NvAPI_D3D12_SetNvShaderExtnSlotSpace_hook,
    NvAPI_D3D12_SetNvShaderExtnSlotSpaceLocalThread_hook.
  rewrite HQI. repeat split.
Qed.

Lemma slot_assignment_records_unconditionally_witness :
  let dev := mkRealDevice 0x100 true in
  let nvapiDev := mkWrapper dev (Some (mkShaderExtUAV 0 1 true)) in
  let failing : PFN_SetNvShaderExtnSlotSpace := fun _ _ _ => NVAPI_ERROR in
  NvAPI_D3D12_SetNvShaderExtnSlotSpaceLocalThread_hook failing (OurWrapper nvapiDev) 5 2
  = mkSlotResult NVAPI_ERROR
      (OurWrapper (mkWrapper dev (Some (mkShaderExtUAV 2 5 false))))
      [CALL NvAPI_D3D12_SetNvShaderExtnSlotSpaceLocalThread dev [5; 2]].
Proof.
  intros dev nvapiDev failing.
  exact (proj2 (proj2 (proj2
    (slot_assignment_records_unconditionally (OurWrapper nvapiDev) nvapiDev
       (fun _ _ => NVAPI_OK) failing 5 2 eq_refl)))).
Defined.

(** ** Objects that are not the tool's wrappers *)

(** C8: when the query for [INVAPID3DDevice] fails on the device argument,
    each of the six handlers returns [NVAPI_INVALID_POINTER], makes no call
    into the vendor library, and leaves the device object and [*pSupported]
    as they were. *)
Theorem unrecognised_device_is_invalid_pointer
    SupportedOpcode (real_query : PFN_IsNvShaderExtnOpCodeSupported)
    (real_slot : PFN_SetNvShaderExtnSlot) (real_space : PFN_SetNvShaderExtnSlotSpace)
    pDev opCode pSupported uavSlot uavSpace :
  QueryInterface_INVAPID3DDevice pDev = None ->
  NvAPI_D3D11_IsNvShaderExtnOpCodeSupported_hook
    SupportedOpcode real_query pDev opCode pSupported
  = mkQueryResult NVAPI_INVALID_POINTER pSupported pDev []
  /\ NvAPI_D3D12_IsNvShaderExtnOpCodeSupported_hook
       SupportedOpcode real_query pDev opCode pSupported
     = mkQueryResult NVAPI_INVALID_POINTER pSupported pDev []
  /\ NvAPI_D3D11_SetNvShaderExtnSlot_hook real_slot pDev uavSlot
     = mkSlotResult NVAPI_INVALID_POINTER pDev []
  /\ NvAPI_D3D11_SetNvShaderExtnSlotLocalThread_hook real_slot pDev uavSlot
     = mkSlotResult NVAPI_INVALID_POINTER pDev []
  /\ NvAPI_D3D12_SetNvShaderExtnSlotSpace_hook real_space pDev uavSlot uavSpace
     = mkSlotResult NVAPI_INVALID_POINTER pDev []
  /\ NvAPI_D3D12_SetNvShaderExtnSlotSpaceLocalThread_hook real_space pDev uavSlot uavSpace
     = mkSlotResult NVAPI_INVALID_POINTER pDev [].
Proof.
  intros HQI.
  unfold NvAPI_D3D11_IsNvShaderExtnOpCodeSupported_hook,
    NvAPI_D3D12_IsNvShaderExtnOpCodeSupported_hook,
    NvAPI_D3D11_SetNvShaderExtnSlot_hook,
    NvAPI_D3D11_SetNvShaderExtnSlotLocalThread_hook,
    NvAPI_D3D12_SetNvShaderExtnSlotSpace_hook,
    NvAPI_D3D12_SetNvShaderExtnSlotSpaceLocalThread_hook.
  rewrite HQI. repeat split.
Qed.

Lemma unrecognised_device_is_invalid_pointer_witness :
  let pDev := Foreign (mkRealDevice 0x200 true) in
  NvAPI_D3D11_IsNvShaderExtnOpCodeSupported_hook
    (fun _ => true) (fun _ _ _ => (NVAPI_OK, true)) pDev 3 (Some false)
  = mkQueryResult NVAPI_INVALID_POINTER (Some false) pDev []
  /\ NvAPI_D3D12_SetNvShaderExtnSlotSpaceLocalThread_hook (fun _ _ _ => NVAPI_OK) pDev 5 2
     = mkSlotResult NVAPI_INVALID_POINTER pDev [].
Proof.
  intros pDev.
  pose proof (unrecognised_device_is_invalid_pointer
                (fun _ => true) (fun _ _ _ => (NVAPI_OK, true)) (fun _ _ => NVAPI_OK)
                (fun _ _ _ => NVAPI_OK) pDev 3 (Some false) 5 2 eq_refl) as H.
  split; [exact (proj1 H) |].
  exact (proj2 (proj2 (proj2 (proj2 (proj2 H))))).
Defined.

(** C10: in the D3D12 capability-query handler, a recognised wrapper whose
    real object does not expose [ID3D12Device] gives [NVAPI_INVALID_POINTER]
    with no call into the vendor library and [*pSupported] untouched; the
    other handlers never ask for that interface and delegate on the same
    device. *)
Theorem d3d12_query_needs_d3d12_device
    SupportedOpcode (real_query : PFN_IsNvShaderExtnOpCodeSupported)
    (real_space : PFN_SetNvShaderExtnSlotSpace)
    pDev nvapiDev opCode pSupported uavSlot uavSpace :
  QueryInterface_INVAPID3DDevice pDev = Some nvapiDev ->
  exposes_ID3D12Device (GetReal nvapiDev) = false ->
  NvAPI_D3D12_IsNvShaderExtnOpCodeSupported_hook
    SupportedOpcode real_query pDev opCode pSupported
  = mkQueryResult NVAPI_INVALID_POINTER pSupported pDev []
  /\ q_trace (NvAPI_D3D11_IsNvShaderExtnOpCodeSupported_hook
                SupportedOpcode real_query pDev opCode pSupported)
     = [CALL NvAPI_D3D11_IsNvShaderExtnOpCodeSupported (GetReal nvapiDev) [opCode]]
  /\ s_trace (NvAPI_D3D12_SetNvShaderExtnSlotSpace_hook real_space pDev uavSlot uavSpace)
     = [CALL NvAPI_D3D12_SetNvShaderExtnSlotSpace (GetReal nvapiDev) [uavSlot; uavSpace]]
  /\ s_trace (NvAPI_D3D12_SetNvShaderExtnSlotSpaceLocalThread_hook
                real_space pDev uavSlot uavSpace)
     = [CALL NvAPI_D3D12_SetNvShaderExtnSlotSpaceLocalThread (GetReal nvapiDev)
             [uavSlot; uavSpace]].
Proof.
  intros HQI Hno.
  unfold NvAPI_D3D12_IsNvShaderExtnOpCodeSupported_hook,
    NvAPI_D3D11_IsNvShaderExtnOpCodeSupported_hook,
    NvAPI_D3D12_SetNvShaderExtnSlotSpace_hook,
    NvAPI_D3D12_SetNvShaderExtnSlotSpaceLocalThread_hook,
    QueryInterface_ID3D12Device.
  rewrite HQI, Hno.
  destruct (real_query (GetReal nvapiDev) opCode pSupported).
  repeat split.
Qed.

Lemma d3d12_query_needs_d3d12_device_witness :
  let nvapiDev := mkWrapper (mkRealDevice 0x100 false) None in
  NvAPI_D3D12_IsNvShaderExtnOpCodeSupported_hook
    (fun _ => true) (fun _ _ _ => (NVAPI_OK, true)) (OurWrapper nvapiDev) 1 (Some true)
  = mkQueryResult NVAPI_INVALID_POINTER (Some true) (OurWrapper nvapiDev) [].
Proof.
  intros nvapiDev.
  exact (proj1 (d3d12_query_needs_d3d12_device
                  (fun _ => true) (fun _ _ _ => (NVAPI_OK, true)) (fun _ _ _ => NVAPI_OK)
                  (OurWrapper nvapiDev) nvapiDev 1 (Some true) 0 0 eq_refl eq_refl)).
Defined.

(** ** Device creation *)

(** C6: the device-only entry point reaches the real [NvAPI_D3D11_CreateDevice]
    once, with the caller's arguments and no surface argument, and the
    assertion of its delegate on the two surface arguments does not fail; the
    combined entry point reaches the real [NvAPI_D3D11_CreateDeviceAndSwapChain]
    once with the caller's surface description and swap-chain out-parameter
    as they were given. *)
Theorem creation_entry_points_forward_surface_arguments
    (real_device : DeviceArgs -> ptr -> HRESULT)
    (real_combined : DeviceArgs -> SwapChainArgs -> ptr -> HRESULT)
    args swap outNVLevel :
  NvAPI_D3D11_CreateDevice_hook real_device args outNVLevel
  = (real_device args outNVLevel, [CALL_NvAPI_D3D11_CreateDevice args outNVLevel])
  /\ ~ In RDCASSERT_swapchain_failed
         (snd (NvAPI_D3D11_CreateDevice_hook real_device args outNVLevel))
  /\ NvAPI_D3D11_CreateDeviceAndSwapChain_hook real_combined args swap outNVLevel
     = (real_combined args swap outNVLevel,
        [CALL_NvAPI_D3D11_CreateDeviceAndSwapChain args swap outNVLevel]).
Proof.
  unfold NvAPI_D3D11_CreateDevice_hook, NvAPI_D3D11_CreateDeviceAndSwapChain_hook,
    CreateD3D11_Internal.
  cbn. repeat split. intros [H | []]. discriminate H.
Qed.

(** ** Resource registration *)

Ltac unfold_register :=
  unfold NvEncodeAPIRegisterResource_hook, call_real_nvEncRegisterResource,
    bind, get, emit, ret.

(** C5 (as amended): with a captured real function, a non-null pointer into
    the encoder library, a structure whose kind is not the DirectX one is
    passed to the real function as it is; so is a structure of the DirectX
    kind when the encoder handle is null.  For the DirectX kind and a
    non-null encoder handle the real function sees the handle replaced by
    its unwrapped value, or the original handle after an error is logged
    when unwrapping gives null, and in both cases the call is delegated, its
    status returned, and the handle field holds the caller's value again on
    return. *)
Theorem register_resource_unwraps_and_restores
    vendor UnwrapDXResource encoder (p : NV_ENC_REGISTER_RESOURCE) s addr :
  real_nvEncRegisterResource s = VendorFn addr ->
  addr <> NULL ->
  let fn := VendorFn addr in
  let delegated passed :=
    NvEncodeAPIRegisterResource_hook vendor UnwrapDXResource encoder (Some p) s
    = Some ((vc_status (vendor fn) encoder (Some passed),
             Some (vc_writes (vendor fn) encoder passed)),
            [CALL_nvEncRegisterResource fn encoder (Some passed)], s) in
  (resourceType p <> NV_ENC_INPUT_RESOURCE_TYPE_DIRECTX \/ encoder = NULL ->
     delegated p)
  /\
  (resourceType p = NV_ENC_INPUT_RESOURCE_TYPE_DIRECTX -> encoder <> NULL ->
     let origHandle := resourceToRegister p in
     let unwrapped := UnwrapDXResource origHandle in
     let passed :=
       set_resourceToRegister p (if unwrapped =? NULL then origHandle else unwrapped) in
     exists after,
       NvEncodeAPIRegisterResource_hook vendor UnwrapDXResource encoder (Some p) s
       = Some ((vc_status (vendor fn) encoder (Some passed), Some after),
               (if unwrapped =? NULL then [RDCERR_unwrap origHandle] else [])
               ++ [CALL_nvEncRegisterResource fn encoder (Some passed)], s)
       /\ after = set_resourceToRegister (vc_writes (vendor fn) encoder passed) origHandle
       /\ resourceToRegister after = origHandle).
Proof.
  intros Hcap Haddr fn delegated. subst fn delegated. cbv beta.
  apply Z.eqb_neq in Haddr. split.
  - intros Hcase. unfold_register. rewrite Hcap. cbn [is_null]. rewrite Haddr.
    assert ((encoder =? NULL)
            || negb (resourceType p =? NV_ENC_INPUT_RESOURCE_TYPE_DIRECTX) = true) as ->.
    { apply orb_true_iff. destruct Hcase as [Hk | He].
      - right. apply negb_true_iff, Z.eqb_neq. exact Hk.
      - left. apply Z.eqb_eq. exact He. }
    rewrite Hcap. reflexivity.
  - intros Hk He origHandle unwrapped passed. subst origHandle unwrapped passed.
    unfold_register. rewrite Hcap. cbn [is_null]. rewrite Haddr.
    apply Z.eqb_neq in He. apply Z.eqb_eq in Hk. rewrite He, Hk. cbn [orb negb].
    cbn [resourceToRegister set_resourceToRegister].
    destruct (UnwrapDXResource (resourceToRegister p) =? NULL) eqn:Hu;
      cbn; rewrite Hcap; cbn; eexists; (split; [reflexivity |]); split; reflexivity.
Qed.

Lemma register_resource_unwraps_and_restores_witness :
  let vendor : funcptr -> VendorCall ptr NV_ENC_REGISTER_RESOURCE :=
    fun _ => mkVendorCall (fun _ _ => 8) (fun _ p => set_resourceToRegister p 0xdead) in
  let Unwrap : ptr -> ptr := fun h => if h =? 0x5000 then 0x9000 else NULL in
  let p := mkRegisterResource 1 NV_ENC_INPUT_RESOURCE_TYPE_DIRECTX [0; 0; 0; 0] 0x5000 [] in
  let s := mkNVHook ∅ (fun _ => NULL) (VendorFn 0x7000) 0 in
  NvEncodeAPIRegisterResource_hook vendor Unwrap 0x44 (Some p) s
  = Some ((8, Some p),
          [CALL_nvEncRegisterResource (VendorFn 0x7000) 0x44
             (Some (set_resourceToRegister p 0x9000))], s).
Proof.
  intros vendor Unwrap p s.
  destruct (register_resource_unwraps_and_restores vendor Unwrap 0x44 p s 0x7000 eq_refl)
    as [_ H]; [unfold NULL; lia |].
  destruct (H eq_refl) as (after & E & Hafter & _); [unfold NULL; lia |].
  rewrite E, Hafter. reflexivity.
Defined.

(** The claim C5 as stated fails: with a null encoder handle a structure of
    the DirectX kind reaches the real function with the caller's wrapped
    handle, not the unwrapped one, although unwrapping would succeed. *)
Lemma null_encoder_is_not_unwrapped :
  let vendor : funcptr -> VendorCall ptr NV_ENC_REGISTER_RESOURCE :=
    fun _ => mkVendorCall (fun _ _ => NV_ENC_SUCCESS) (fun _ p => p) in
  let Unwrap : ptr -> ptr := fun h => if h =? 0x5000 then 0x9000 else NULL in
  let p := mkRegisterResource 1 NV_ENC_INPUT_RESOURCE_TYPE_DIRECTX [0; 0; 0; 0] 0x5000 [] in
  let s := mkNVHook ∅ (fun _ => NULL) (VendorFn 0x7000) 0 in
  is_null (real_nvEncRegisterResource s) = false
  /\ resourceType p = NV_ENC_INPUT_RESOURCE_TYPE_DIRECTX
  /\ Unwrap (resourceToRegister p) = 0x9000
  /\ NvEncodeAPIRegisterResource_hook vendor Unwrap NULL (Some p) s
     = Some ((NV_ENC_SUCCESS, Some p),
             [CALL_nvEncRegisterResource (VendorFn 0x7000) NULL (Some p)], s)
  /\ resourceToRegister p <> Unwrap (resourceToRegister p).
Proof. cbv zeta. repeat split. discriminate. Qed.

(** ** Encoder initialisation *)

(** C9: when the real initializer reports success and leaves a non-null
    registration pointer in the table, the hook returns that status, stores
    that pointer as the captured real function and puts the local handler in
    the table's field, leaving the rest of the table and of the singleton
    alone; a version tag other than the expected one only adds a warning and
    a different previously captured pointer only adds a failed assertion. *)
Theorem create_instance_patches_table
    (real_create : VendorCall unit NV_ENCODE_API_FUNCTION_LIST)
    (functions : NV_ENCODE_API_FUNCTION_LIST) s :
  let table := vc_writes real_create tt functions in
  vc_status real_create tt (Some functions) = NV_ENC_SUCCESS ->
  is_null (nvEncRegisterResource table) = false ->
  exists s1,
    NvEncodeAPICreateInstance_hook real_create (Some functions) s
    = Some ((NV_ENC_SUCCESS,
             Some (mkFunctionList (fl_version table) (fl_reserved table)
                     (otherFunctions table) RegisterResourceHook (fl_more table))),
            [CALL_NvEncodeAPICreateInstance (Some functions)]
            ++ (if fl_version table =? expectedVersion then []
                else [RDCWARN_version (fl_version table) expectedVersion])
            ++ (if is_null (real_nvEncRegisterResource s)
                   || bool_decide (real_nvEncRegisterResource s
                                   = nvEncRegisterResource table)
                then [] else [RDCASSERT_failed "real_nvEncRegisterResource"]),
            s1)
    /\ real_nvEncRegisterResource s1 = nvEncRegisterResource table
    /\ nvapi_lookup s1 = nvapi_lookup s
    /\ orig_funcptr s1 = orig_funcptr s
    /\ count s1 = count s.
Proof.
  intros table Hok Hptr. subst table.
  unfold NvEncodeAPICreateInstance_hook, bind, emit, get, when, ret,
    set_real_nvEncRegisterResource, set_nvEncRegisterResource.
  cbn [fmap option_fmap option_map]. rewrite Hok, Hptr. cbn [andb negb Z.eqb NV_ENC_SUCCESS].
  destruct (fl_version (vc_writes real_create tt functions) =? expectedVersion);
    cbn [negb]; cbv beta iota;
    destruct (is_null (real_nvEncRegisterResource s)
              || bool_decide (real_nvEncRegisterResource s
                              = nvEncRegisterResource (vc_writes real_create tt functions)));
    cbn; eexists; (split; [reflexivity |]); cbn; repeat split.
Qed.

Lemma create_instance_patches_table_witness :
  let real_create : VendorCall unit NV_ENCODE_API_FUNCTION_LIST :=
    mkVendorCall (fun _ _ => NV_ENC_SUCCESS)
                 (fun _ f => mkFunctionList 0x71020008 0 (otherFunctions f)
                               (VendorFn 0x7000) (fl_more f)) in
  let functions := mkFunctionList 0 0 [] (VendorFn NULL) [] in
  exists s1,
    NvEncodeAPICreateInstance_hook real_create (Some functions) (RegisterHooks [])
    = Some ((NV_ENC_SUCCESS,
             Some (mkFunctionList 0x71020008 0 [] RegisterResourceHook [])),
            [CALL_NvEncodeAPICreateInstance (Some functions);
             RDCWARN_version 0x71020008 0x71020010], s1)
    /\ real_nvEncRegisterResource s1 = VendorFn 0x7000.
Proof.
  intros real_create functions.
  destruct (create_instance_patches_table real_create functions (RegisterHooks [])
              eq_refl eq_refl) as (s1 & E & Hcap & _).
  exists s1. split; [exact E | exact Hcap].
Defined.

(** * Further properties *)

(** ** The outcomes of one resolution *)

Lemma switch_on_hook_In fname ID ID' :
  switch_on ID = Some (HOOK_NVAPI fname ID') ->
  ID' = ID /\ In (HOOK_NVAPI fname ID) NVAPI_FUNCS.
Proof.
  intros H. apply switch_on_In in H as [Hin Hid]. cbn in Hid. subst ID'.
  split; [reflexivity |].
  unfold switch_cases in Hin. apply in_app_or in Hin as [Hin | Hin]; [exact Hin |].
  cbn in Hin. repeat (destruct Hin as [Hin | Hin]; [discriminate Hin |]). destruct Hin.
Qed.

Lemma switch_on_whitelist_In n ID ID' :
  switch_on ID = Some (WHITELIST_NVAPI n ID') -> ID' = ID /\ In ID always_allow_set.
Proof.
  intros H. apply switch_on_In in H as [Hin Hid]. cbn in Hid. subst ID'.
  split; [reflexivity |].
  unfold switch_cases, NVAPI_FUNCS in Hin. cbn [In app] in Hin.
  repeat (destruct Hin as [Hin | Hin];
          [first [discriminate Hin | inversion Hin; subst; vm_compute; tauto] |]).
  destruct Hin.
Qed.

(** Every defined resolution is one of five cases. *)
Lemma resolve_cases real_QueryInterface enabled ID s p l s1 :
  nvapi_QueryInterface_hook real_QueryInterface enabled ID s = Some (p, l, s1) ->
  let real := real_QueryInterface ID in
  (real = NULL /\ p = VendorFn NULL /\ l = [] /\ s1 = s)
  \/ (real <> NULL /\ exists fname,
        In (HOOK_NVAPI fname ID) NVAPI_FUNCS /\ p = LocalHook fname /\ l = []
        /\ s1 = mkNVHook (nvapi_lookup s)
                  (fun g => if decide (g = fname)
                            then (if orig_funcptr s fname =? NULL then real
                                  else orig_funcptr s fname)
                            else orig_funcptr s g)
                  (real_nvEncRegisterResource s) (count s))
  \/ (real <> NULL /\ In ID always_allow_set /\ p = VendorFn real /\ l = [] /\ s1 = s)
  \/ (real <> NULL /\ switch_on ID = None /\ enabled = true
      /\ p = VendorFn real /\ l = [RDCDEBUG_allowed real (display_name s ID)]
      /\ s1 = lookup_touched ID s)
  \/ (real <> NULL /\ switch_on ID = None /\ enabled = false /\ count s < INT_MAX
      /\ p = VendorFn NULL
      /\ l = (if count s <? 10 then [RDCWARN_disabled (display_name s ID)] else [])
      /\ s1 = mkNVHook (nvapi_lookup (lookup_touched ID s)) (orig_funcptr s)
                (real_nvEncRegisterResource s) (count s + 1)).
Proof.
  intros H real. subst real. unfold nvapi_QueryInterface_hook in H.
  destruct (real_QueryInterface ID =? NULL) eqn:Hreal.
  { apply Z.eqb_eq in Hreal. rewrite Hreal in *. inversion H; subst. left. auto. }
  apply Z.eqb_neq in Hreal. right.
  destruct (switch_on ID) as [[fname ID' | n ID'] |] eqn:Hsw.
  - left. apply switch_on_hook_In in Hsw as [-> Hin].
    inversion H; subst. split; [exact Hreal |]. exists fname. auto.
  - right; left. apply switch_on_whitelist_In in Hsw as [-> Hin].
    inversion H; subst. auto.
  - right; right.
    unfold bind, nvapi_lookup_at, get, when, count_incr, emit, ret, undefined_behaviour in H.
    unfold display_name, lookup_touched.
    destruct enabled.
    + left. destruct (nvapi_lookup s !! ID) as [cname |] eqn:E;
        cbn in H; inversion H; subst; repeat split; auto.
    + right.
      destruct (nvapi_lookup s !! ID) as [cname |] eqn:E; cbn -[INT_MAX Z.ltb] in H;
        destruct (count s <? 10); cbn -[INT_MAX Z.ltb] in H;
        destruct (count s <? INT_MAX) eqn:Hc; cbn in H; try discriminate H;
        apply Z.ltb_lt in Hc; inversion H; subst; repeat split; auto.
Qed.

Lemma hook_set_In ID :
  In ID hook_set <-> exists fname, In (HOOK_NVAPI fname ID) NVAPI_FUNCS.
Proof.
  split.
  - intros H. vm_compute in H.
    repeat (destruct H as [H | H]; [subst ID; eexists; cbn; tauto |]). destruct H.
  - intros [fname H]. unfold NVAPI_FUNCS in H. cbn [In] in H.
    repeat (destruct H as [H | H];
            [first [discriminate H | inversion H; subst; vm_compute; tauto] |]).
    destruct H.
Qed.

Lemma hard_coded_sets_disjoint ID : In ID hook_set -> In ID always_allow_set -> False.
Proof.
  intros Hh Ha. apply hook_set_In in Hh as [fname Hh].
  apply switch_on_hooked in Hh. apply switch_on_allowed in Ha as [n Ha].
  congruence.
Qed.

Lemma switch_on_None_outside ID :
  switch_on ID = None -> ~ In ID hook_set /\ ~ In ID always_allow_set.
Proof.
  intros Hsw. split; intros H.
  - apply hook_set_In in H as [fname H]. apply switch_on_hooked in H. congruence.
  - apply switch_on_allowed in H as [n H]. congruence.
Qed.

(** ** Which identifiers the application can see *)



(** X2: a non-null pointer handed to the application is the address of the
    designated local handler when the identifier is in the hook set, and the
    vendor's own pointer, unmodified, for every other identifier. *)
Theorem resolved_pointer_is_handler_or_real real_QueryInterface enabled ID s p l s1 :
  nvapi_QueryInterface_hook real_QueryInterface enabled ID s = Some (p, l, s1) ->
  is_null p = false ->
  (In ID hook_set ->
     exists fname, In (HOOK_NVAPI fname ID) NVAPI_FUNCS /\ p = LocalHook fname)
  /\ (~ In ID hook_set -> p = VendorFn (real_QueryInterface ID)).
Proof.
  intros H Hp. apply resolve_cases in H. cbv zeta in H.
  destruct H as [(Hr & -> & _) | [(Hr & fname & Hin & -> & _) | [(Hr & Hin & -> & _)
    | [(Hr & Hsw & -> & -> & _) | (Hr & Hsw & -> & _ & -> & _)]]]].
  - discriminate Hp.
  - split; [eauto |]. intros Hn. exfalso. apply Hn, hook_set_In. eauto.
  - split; [| reflexivity]. intros Hh. exfalso. eapply hard_coded_sets_disjoint; eauto.
  - split; [| reflexivity]. intros Hh. exfalso.
    apply switch_on_None_outside in Hsw as [Hn _]. contradiction.
  - discriminate Hp.
Qed.

Lemma resolved_pointer_is_handler_or_real_witness :
  exists fname,
    In (HOOK_NVAPI fname 0xac2dfeb5) NVAPI_FUNCS
    /\ LocalHook NvAPI_D3D12_SetNvShaderExtnSlotSpace = LocalHook fname.
Proof.
  refine (proj1 (resolved_pointer_is_handler_or_real (fun _ => 0x7ff000) false 0xac2dfeb5
                   (RegisterHooks []) (LocalHook NvAPI_D3D12_SetNvShaderExtnSlotSpace) [] _
                   eq_refl eq_refl) _).
  vm_compute. tauto.
Defined.

(** ** The lookup map *)

Lemma fold_insert_lookup table :
  forall (m : gmap Z (option string)) id,
    fold_left (fun m iface => <[iface_id iface := Some (iface_func iface)]> m) table m !! id
    = match last_row table id with
      | Some r => Some (Some (iface_func r))
      | None => m !! id
      end.
Proof.
  induction table as [| r table IH]; intros m id; cbn; [reflexivity |].
  rewrite IH. destruct (last_row table id); [reflexivity |].
  rewrite lookup_insert.
  destruct (decide (iface_id r = id)) as [E | E].
  - apply Z.eqb_eq in E as ->. reflexivity.
  - apply Z.eqb_neq in E as ->. reflexivity.
Qed.

(** X3: the map [RegisterHooks] builds answers, for every identifier, with
    the name of the last row of the interface table that carries this
    identifier, and has no entry for an identifier no row carries. *)
Theorem RegisterHooks_lookup table id :
  nvapi_lookup (RegisterHooks table) !! id
  = (fun r => Some (iface_func r)) <$> last_row table id.
Proof.
  unfold RegisterHooks. cbn [nvapi_lookup]. rewrite fold_insert_lookup.
  destruct (last_row table id); cbn; [reflexivity | apply lookup_empty].
Qed.

(** X4: after [RegisterHooks], a resolution of an identifier outside both
    hard-coded sets that the vendor knows is reported under the name of the
    last table row with that identifier, or in hexadecimal when the table
    has none: as a debug line with the real pointer returned when the policy
    flag is on, as a warning with null returned when it is off. *)
Theorem unrecognised_identifier_is_reported_by_name table real_QueryInterface ID :
  ~ In ID hook_set -> ~ In ID always_allow_set ->
  real_QueryInterface ID <> NULL ->
  let name := match last_row table ID with
              | Some r => iface_func r
              | None => Fmt_0x ID
              end in
  (exists s1,
     nvapi_QueryInterface_hook real_QueryInterface true ID (RegisterHooks table)
     = Some (VendorFn (real_QueryInterface ID),
             [RDCDEBUG_allowed (real_QueryInterface ID) name], s1))
  /\ (exists s1,
        nvapi_QueryInterface_hook real_QueryInterface false ID (RegisterHooks table)
        = Some (VendorFn NULL, [RDCWARN_disabled name], s1)).
Proof.
  intros Hh Ha Hreal name.
  assert (Hname : display_name (RegisterHooks table) ID = name).
  { unfold display_name. rewrite RegisterHooks_lookup. subst name.
    destruct (last_row table ID); reflexivity. }
  pose proof (switch_on_unknown _ Hh Ha) as Hsw. split.
  - unfold nvapi_QueryInterface_hook. apply Z.eqb_neq in Hreal. rewrite Hreal, Hsw.
    unfold bind, nvapi_lookup_at, emit, ret.
    rewrite <- Hname. unfold display_name.
    destruct (nvapi_lookup (RegisterHooks table) !! ID) as [[c |] |]; cbn; eauto.
  - destruct (resolve_denied real_QueryInterface ID (RegisterHooks table) Hsw Hreal)
      as (s1 & E & _); [cbn; unfold INT_MAX; lia |].
    exists s1. rewrite E, Hname. reflexivity.
Qed.

Lemma unrecognised_identifier_is_reported_by_name_witness :
  let table := [mkIface "NvAPI_GPU_GetFullName" 0xceee8e9f;
                mkIface "NvAPI_EnumPhysicalGPUs" 0xe5ac921f] in
  exists s1,
    nvapi_QueryInterface_hook (fun _ => 0x7ff000) false 0xceee8e9f (RegisterHooks table)
    = Some (VendorFn NULL, [RDCWARN_disabled "NvAPI_GPU_GetFullName"], s1).
Proof.
  intros table.
  refine (proj2 (unrecognised_identifier_is_reported_by_name table (fun _ => 0x7ff000)
                   0xceee8e9f _ _ _)).
  - intros H; vm_compute in H; repeat (destruct H as [H | H]; [discriminate H |]); exact H.
  - intros H; vm_compute in H; repeat (destruct H as [H | H]; [discriminate H |]); exact H.
  - unfold NULL; lia.
Defined.

(** ** Invariants of runs of resolutions *)

Lemma lookup_touched_fields ID s :
  count (lookup_touched ID s) = count s
  /\ orig_funcptr (lookup_touched ID s) = orig_funcptr s
  /\ real_nvEncRegisterResource (lookup_touched ID s) = real_nvEncRegisterResource s.
Proof. unfold lookup_touched. destruct (nvapi_lookup s !! ID); auto. Qed.

Lemma lookup_touched_lookup ID s ID' :
  nvapi_lookup (lookup_touched ID s) !! ID' = nvapi_lookup s !! ID'
  \/ (nvapi_lookup s !! ID' = None
      /\ nvapi_lookup (lookup_touched ID s) !! ID' = Some None).
Proof.
  unfold lookup_touched. destruct (nvapi_lookup s !! ID) eqn:E; [auto |]. cbn.
  rewrite lookup_insert. destruct (decide (ID = ID')) as [<- |]; auto.
Qed.

Lemma policy_denial_step real_QueryInterface enabled ID s p l s1 :
  nvapi_QueryInterface_hook real_QueryInterface enabled ID s = Some (p, l, s1) ->
  0 <= count s ->
  let d := if policy_denial (mkResolution ID real_QueryInterface enabled) then 1 else 0 in
  count s1 = count s + d
  /\ count_warnings l = Z.min 10 (count s1) - Z.min 10 (count s).
Proof.
  intros H Hpos. apply resolve_cases in H. cbv zeta in H. unfold policy_denial.
  cbn [res_ID res_resolver res_enabled].
  destruct H as [(Hr & _ & -> & ->) | [(Hr & fname & Hin & _ & -> & ->)
    | [(Hr & Hin & _ & -> & ->) | [(Hr & Hsw & -> & _ & -> & ->)
    | (Hr & Hsw & -> & Hc & _ & -> & ->)]]]].
  - rewrite Hr. cbn [count_warnings]. change (negb (NULL =? NULL)) with false.
    cbn [andb]. lia.
  - rewrite (switch_on_hooked _ _ Hin), andb_false_r. cbn [count count_warnings]. lia.
  - destruct (switch_on_allowed _ Hin) as [n ->]. rewrite andb_false_r.
    cbn [count_warnings]. lia.
  - rewrite Hsw. cbn [negb]. rewrite andb_false_r.
    destruct (lookup_touched_fields ID s) as (-> & _).
    cbn [count_warnings is_warning]. lia.
  - rewrite Hsw. apply Z.eqb_neq in Hr as ->. cbn [negb andb count].
    destruct (count s <? 10) eqn:E; cbn [count_warnings is_warning];
      [apply Z.ltb_lt in E | apply Z.ltb_ge in E]; lia.
Qed.

Lemma warning_budget_from qs :
  forall s rs s1,
    0 <= count s ->
    resolve_all qs s = Some (rs, s1) ->
    count s1 = count s + policy_denials qs
    /\ warnings rs = Z.min 10 (count s1) - Z.min 10 (count s).
Proof.
  induction qs as [| [ID real enabled] qs IH]; intros s rs s1 Hpos H; cbn in H.
  - inversion H; subst. cbn. lia.
  - unfold resolve in H. cbn in H.
    destruct (nvapi_QueryInterface_hook real enabled ID s) as [[[p l] s'] |] eqn:E;
      [| discriminate].
    destruct (resolve_all qs s') as [[rs' s2] |] eqn:E2; [| discriminate].
    inversion H; subst.
    destruct (policy_denial_step _ _ _ _ _ _ _ E Hpos) as [Hc Hw]. cbv zeta in Hc.
    assert (Hpos' : 0 <= count s')
      by (rewrite Hc; destruct (policy_denial _); lia).
    destruct (IH _ _ _ Hpos' E2) as [Hc2 Hw2].
    cbn [policy_denials warnings snd]. rewrite Hc2, Hc, Hw, Hw2, Hc. lia.
Qed.

Lemma policy_denials_nonneg qs : 0 <= policy_denials qs.
Proof. induction qs as [| q qs IH]; cbn; [lia | destruct (policy_denial q); lia]. Qed.

Lemma policy_denial_inv q :
  policy_denial q = true ->
  res_resolver q (res_ID q) <> NULL /\ switch_on (res_ID q) = None
  /\ res_enabled q = false.
Proof.
  unfold policy_denial. intros H. apply andb_true_iff in H as [Hr Hs].
  apply negb_true_iff, Z.eqb_neq in Hr.
  destruct (switch_on (res_ID q)); [discriminate Hs |].
  apply negb_true_iff in Hs. auto.
Qed.

Lemma resolve_defined q s :
  (policy_denial q = true -> count s < INT_MAX) ->
  exists r, resolve q s = Some r.
Proof.
  intros Hc. unfold resolve, nvapi_QueryInterface_hook.
  destruct (res_resolver q (res_ID q) =? NULL) eqn:Hr; [eauto |].
  destruct (switch_on (res_ID q)) as [[fname ID' | n ID'] |] eqn:Hsw; [eauto | eauto |].
  destruct (res_enabled q) eqn:He.
  - unfold bind, nvapi_lookup_at, emit, ret.
    destruct (nvapi_lookup s !! res_ID q); cbn; eauto.
  - assert (Hlt : count s < INT_MAX).
    { apply Hc. unfold policy_denial. rewrite Hr, Hsw, He. reflexivity. }
    apply Z.eqb_neq in Hr.
    destruct (resolve_denied (res_resolver q) (res_ID q) s Hsw Hr Hlt) as (s1 & E & _).
    unfold nvapi_QueryInterface_hook in E. apply Z.eqb_neq in Hr.
    rewrite Hr, Hsw in E. eauto.
Qed.

Lemma resolve_overflow q s :
  policy_denial q = true -> count s = INT_MAX -> resolve q s = None.
Proof.
  intros Hd Hc. apply policy_denial_inv in Hd as (Hr & Hsw & He).
  unfold resolve. rewrite He. apply count_overflow_undefined; assumption.
Qed.

Lemma run_defined_iff qs :
  forall s,
    0 <= count s <= INT_MAX ->
    (count s + policy_denials qs <= INT_MAX ->
       exists rs s1, resolve_all qs s = Some (rs, s1))
    /\ (INT_MAX < count s + policy_denials qs -> resolve_all qs s = None).
Proof.
  induction qs as [| q qs IH]; intros s Hrange.
  - cbn. split; [eauto | lia].
  - pose proof (policy_denials_nonneg qs) as Hpos.
    cbn [policy_denials resolve_all].
    destruct (policy_denial q) eqn:Hd.
    + destruct (Z.eq_dec (count s) INT_MAX) as [Hmax | Hlt].
      * rewrite (resolve_overflow q s Hd Hmax). split; [lia | reflexivity].
      * destruct (resolve_defined q s) as [[[p l] s'] E]; [lia |].
        rewrite E. destruct q as [ID real enabled]. unfold resolve in E. cbn in E.
        destruct (policy_denial_step _ _ _ _ _ _ _ E) as [Hc _]; [lia |].
        cbv zeta in Hc. rewrite Hd in Hc.
        destruct (IH s') as [IH1 IH2]; [lia |]. split.
        -- intros Hb. destruct IH1 as (rs & s1 & ->); [lia |]. eauto.
        -- intros Hb. rewrite IH2; [reflexivity | lia].
    + destruct (resolve_defined q s) as [[[p l] s'] E]; [rewrite Hd; discriminate |].
      rewrite E. destruct q as [ID real enabled]. unfold resolve in E. cbn in E.
      destruct (policy_denial_step _ _ _ _ _ _ _ E) as [Hc _]; [lia |].
      cbv zeta in Hc. rewrite Hd in Hc.
      destruct (IH s') as [IH1 IH2]; [lia |]. split.
      * intros Hb. destruct IH1 as (rs & s1 & ->); [lia |]. eauto.
      * intros Hb. rewrite IH2; [reflexivity | lia].
Qed.

(** X5: a run of resolutions started with the counter at 0, whatever the
    identifiers, answers and policy values, has a defined outcome exactly
    when at most [INT_MAX] of its resolutions take the "disabled" branch;
    the counter then ends at the number of those resolutions and the number
    of "NvAPI disabled" warnings emitted is that number capped at 10.  With
    more such resolutions the counter overflows and the run has no defined
    outcome, so no bound on the warnings holds there. *)
Theorem warning_budget qs s :
  count s = 0 ->
  (policy_denials qs <= INT_MAX ->
     exists rs s1,
       resolve_all qs s = Some (rs, s1)
       /\ count s1 = policy_denials qs
       /\ warnings rs = Z.min 10 (policy_denials qs)
       /\ warnings rs <= 10)
  /\ (INT_MAX < policy_denials qs -> resolve_all qs s = None).
Proof.
  intros H0.
  destruct (run_defined_iff qs s) as [Hdef Hundef]; [rewrite H0; unfold INT_MAX; lia |].
  rewrite H0 in Hdef, Hundef. split; [| intros Hb; apply Hundef; lia].
  intros Hb. destruct Hdef as (rs & s1 & E); [lia |].
  exists rs, s1. split; [exact E |].
  destruct (warning_budget_from qs s rs s1) as [Hc Hw]; [lia | exact E |].
  rewrite H0 in *. rewrite Hc in Hw. cbn in Hc, Hw.
  repeat split; lia.
Qed.

Lemma warning_budget_witness :
  let unknown := mkResolution 0x12345678 (fun _ => 0x7ff000) false in
  let allowed := mkResolution 0x12345678 (fun _ => 0x7ff000) true in
  let hooked := mkResolution 0x8e90bb9f (fun _ => 0x7ff100) false in
  let qs := replicate 7 unknown ++ [allowed; hooked] ++ replicate 5 unknown in
  exists rs s1,
    resolve_all qs (RegisterHooks []) = Some (rs, s1)
    /\ count s1 = 12 /\ warnings rs = 10.
Proof.
  intros unknown allowed hooked qs.
  destruct (proj1 (warning_budget qs (RegisterHooks []) eq_refl))
    as (rs & s1 & E & Hc & Hw & _).
  - vm_compute. discriminate.
  - exists rs, s1. split; [exact E |]. split; [exact Hc | exact Hw].
Defined.

Lemma hooked_ID_of_entry fname ID :
  In (HOOK_NVAPI fname ID) NVAPI_FUNCS -> hooked_ID fname = ID.
Proof.
  unfold NVAPI_FUNCS. cbn [In]. intros H.
  repeat (destruct H as [H | H]; [first [discriminate H | inversion H; subst; reflexivity] |]).
  destruct H.
Qed.

Lemma capture_frame_step real_QueryInterface enabled ID s p l s1 fname :
  nvapi_QueryInterface_hook real_QueryInterface enabled ID s = Some (p, l, s1) ->
  ID <> hooked_ID fname \/ real_QueryInterface ID = NULL ->
  orig_funcptr s1 fname = orig_funcptr s fname.
Proof.
  intros H Hother. apply resolve_cases in H. cbv zeta in H.
  destruct H as [(Hr & _ & _ & ->) | [(Hr & g & Hin & _ & _ & ->)
    | [(Hr & Hin & _ & _ & ->) | [(Hr & Hsw & _ & _ & _ & ->)
    | (Hr & Hsw & _ & _ & _ & _ & ->)]]]]; try reflexivity.
  - cbn [orig_funcptr]. destruct Hother as [Hne | Hnull]; [| contradiction].
    destruct (decide (fname = g)) as [-> | _]; [| reflexivity].
    apply hooked_ID_of_entry in Hin. congruence.
  - destruct (lookup_touched_fields ID s) as (_ & -> & _). reflexivity.
Qed.

(** X6: the slot of a hooked member can change only in a resolution of that
    member's own identifier that the vendor answers non-null: a run in which
    every resolution is for another identifier or gets a null answer leaves
    the member's captured pointer as it was. *)
Theorem captured_pointer_changes_only_on_own_identifier qs :
  forall s rs s1 fname,
    resolve_all qs s = Some (rs, s1) ->
    Forall (fun q => res_ID q <> hooked_ID fname \/ res_resolver q (res_ID q) = NULL) qs ->
    orig_funcptr s1 fname = orig_funcptr s fname.
Proof.
  induction qs as [| [ID real enabled] qs IH]; intros s rs s1 fname H Hall; cbn in H.
  - inversion H; subst. reflexivity.
  - inversion Hall as [| ? ? Hq Hqs]; subst. cbn in Hq.
    unfold resolve in H. cbn in H.
    destruct (nvapi_QueryInterface_hook real enabled ID s) as [[[p l] s'] |] eqn:E;
      [| discriminate].
    destruct (resolve_all qs s') as [[rs' s2] |] eqn:E2; [| discriminate].
    inversion H; subst.
    rewrite (IH _ _ _ fname E2 Hqs). exact (capture_frame_step _ _ _ _ _ _ _ fname E Hq).
Qed.

Lemma captured_pointer_changes_only_on_own_identifier_witness :
  let f := NvAPI_D3D11_SetNvShaderExtnSlot in
  let s := mkNVHook ∅ (fun g => if decide (g = f) then 0x1000 else NULL) (VendorFn NULL) 0 in
  let qs := [mkResolution 0x5f68da40 (fun _ => 0x3000) false;
             mkResolution 0x12345678 (fun _ => 0x4000) true;
             mkResolution 0x8e90bb9f (fun _ => NULL) true] in
  exists rs s1,
    resolve_all qs s = Some (rs, s1)
    /\ orig_funcptr s1 f = 0x1000
    /\ orig_funcptr s1 NvAPI_D3D11_IsNvShaderExtnOpCodeSupported = 0x3000.
Proof.
  intros f s qs.
  destruct (resolve_all qs s) as [[rs s1] |] eqn:E;
    [| vm_compute in E; discriminate E].
  exists rs, s1. split; [reflexivity |]. split.
  - rewrite (captured_pointer_changes_only_on_own_identifier qs s rs s1 f E);
      [reflexivity |].
    repeat (constructor 2; [cbn; first [left; discriminate | right; reflexivity] |]).
    constructor 1.
  - vm_compute in E. inversion E; subst s1. reflexivity.
Defined.

Lemma resolve_keeps real_QueryInterface enabled ID s p l s1 :
  nvapi_QueryInterface_hook real_QueryInterface enabled ID s = Some (p, l, s1) ->
  real_nvEncRegisterResource s1 = real_nvEncRegisterResource s
  /\ forall ID',
       nvapi_lookup s1 !! ID' = nvapi_lookup s !! ID'
       \/ (nvapi_lookup s !! ID' = None /\ nvapi_lookup s1 !! ID' = Some None).
Proof.
  intros H. apply resolve_cases in H. cbv zeta in H.
  destruct H as [(Hr & _ & _ & ->) | [(Hr & g & Hin & _ & _ & ->)
    | [(Hr & Hin & _ & _ & ->) | [(Hr & Hsw & _ & _ & _ & ->)
    | (Hr & Hsw & _ & _ & _ & _ & ->)]]]]; cbn; auto.
  - split; [apply lookup_touched_fields | apply lookup_touched_lookup].
  - split; [reflexivity | apply lookup_touched_lookup].
Qed.

(** X7: a run of resolutions never touches the captured encoder
    registration pointer, and the only change it makes to the lookup map is
    to add null entries for identifiers that had none, so every identifier
    keeps the name it is reported under. *)
Theorem resolutions_only_add_null_names qs :
  forall s rs s1,
    resolve_all qs s = Some (rs, s1) ->
    real_nvEncRegisterResource s1 = real_nvEncRegisterResource s
    /\ (forall ID,
          nvapi_lookup s1 !! ID = nvapi_lookup s !! ID
          \/ (nvapi_lookup s !! ID = None /\ nvapi_lookup s1 !! ID = Some None))
    /\ forall ID, display_name s1 ID = display_name s ID.
Proof.
  induction qs as [| [ID real enabled] qs IH]; intros s rs s1 H; cbn in H.
  - inversion H; subst. auto.
  - unfold resolve in H. cbn in H.
    destruct (nvapi_QueryInterface_hook real enabled ID s) as [[[p l] s'] |] eqn:E;
      [| discriminate].
    destruct (resolve_all qs s') as [[rs' s2] |] eqn:E2; [| discriminate].
    inversion H; subst.
    destruct (resolve_keeps _ _ _ _ _ _ _ E) as [Hk Hm].
    destruct (IH _ _ _ E2) as (Hk2 & Hm2 & _).
    assert (Hmap : forall ID',
              nvapi_lookup s1 !! ID' = nvapi_lookup s !! ID'
              \/ (nvapi_lookup s !! ID' = None /\ nvapi_lookup s1 !! ID' = Some None)).
    { intros ID'. destruct (Hm ID') as [E1 | [E1 E1']], (Hm2 ID') as [E3 | [E3 E3']];
        first [left; congruence | right; split; congruence]. }
    split; [congruence |]. split; [exact Hmap |].
    intros ID'. unfold display_name.
    destruct (Hmap ID') as [-> | [-> ->]]; reflexivity.
Qed.

Lemma resolutions_only_add_null_names_witness :
  let table := [mkIface "NvAPI_GPU_GetFullName" 0xceee8e9f] in
  let qs := [mkResolution 0x12345678 (fun _ => 0x7ff000) true;
             mkResolution 0xceee8e9f (fun _ => 0x7ff100) false] in
  exists rs s1,
    resolve_all qs (RegisterHooks table) = Some (rs, s1)
    /\ nvapi_lookup s1 !! 0x12345678 = Some None
    /\ display_name s1 0xceee8e9f = "NvAPI_GPU_GetFullName"%string.
Proof.
  intros table qs.
  destruct (resolve_all qs (RegisterHooks table)) as [[rs s1] |] eqn:E;
    [| vm_compute in E; discriminate E].
  exists rs, s1. split; [reflexivity |].
  destruct (resolutions_only_add_null_names qs _ _ _ E) as (_ & Hm & Hn).
  split.
  - destruct (Hm 0x12345678) as [H | [_ H]]; [| exact H].
    exfalso. vm_compute in E. inversion E; subst s1. vm_compute in H. discriminate H.
  - rewrite Hn. reflexivity.
Defined.

(** X8: when the counter of denials holds [INT_MAX], one more denial has no
    defined outcome: the hook increments the [int] counter on every denial,
    also after the tenth. *)
Theorem denial_counter_is_unbounded real_QueryInterface ID s :
  ~ In ID hook_set -> ~ In ID always_allow_set ->
  real_QueryInterface ID <> NULL ->
  count s = INT_MAX ->
  nvapi_QueryInterface_hook real_QueryInterface false ID s = None
  /\ exists s1,
       nvapi_QueryInterface_hook real_QueryInterface true ID s
       = Some (VendorFn (real_QueryInterface ID),
               [RDCDEBUG_allowed (real_QueryInterface ID) (display_name s ID)], s1).
Proof.
  intros Hh Ha Hreal Hc. pose proof (switch_on_unknown _ Hh Ha) as Hsw.
  split; [apply count_overflow_undefined; assumption |].
  unfold nvapi_QueryInterface_hook. apply Z.eqb_neq in Hreal. rewrite Hreal, Hsw.
  unfold bind, nvapi_lookup_at, emit, ret, display_name.
  destruct (nvapi_lookup s !! ID) as [[c |] |]; cbn; eauto.
Qed.

Lemma denial_counter_is_unbounded_witness :
  nvapi_QueryInterface_hook (fun _ => 0x7ff000) false 0x12345678
    (mkNVHook ∅ (fun _ => NULL) (VendorFn NULL) INT_MAX) = None.
Proof.
  refine (proj1 (denial_counter_is_unbounded (fun _ => 0x7ff000) 0x12345678
                   (mkNVHook ∅ (fun _ => NULL) (VendorFn NULL) INT_MAX) _ _ _ eq_refl)).
  - intros H; vm_compute in H; repeat (destruct H as [H | H]; [discriminate H |]); exact H.
  - intros H; vm_compute in H; repeat (destruct H as [H | H]; [discriminate H |]); exact H.
  - unfold NULL; lia.
Defined.

(** ** The device handlers *)

Ltac unfold_device_handlers :=
  unfold NvAPI_D3D11_IsNvShaderExtnOpCodeSupported_hook,
    NvAPI_D3D12_IsNvShaderExtnOpCodeSupported_hook,
    NvAPI_D3D11_SetNvShaderExtnSlot_hook,
    NvAPI_D3D11_SetNvShaderExtnSlotLocalThread_hook,
    NvAPI_D3D12_SetNvShaderExtnSlotSpace_hook,
    NvAPI_D3D12_SetNvShaderExtnSlotSpaceLocalThread_hook,
    QueryInterface_ID3D12Device.

(** X9: with a null [pSupported] the capability-query handlers still
    delegate on a recognised wrapper and return the delegated status;
    nothing is written and the out-parameter stays null. *)
Theorem capability_query_with_null_out_parameter
    SupportedOpcode real_fn pDev nvapiDev opCode :
  QueryInterface_INVAPID3DDevice pDev = Some nvapiDev ->
  let real := GetReal nvapiDev in
  NvAPI_D3D11_IsNvShaderExtnOpCodeSupported_hook SupportedOpcode real_fn pDev opCode None
  = mkQueryResult (fst (real_fn real opCode None)) None pDev
      [CALL NvAPI_D3D11_IsNvShaderExtnOpCodeSupported real [opCode]]
  /\ (exposes_ID3D12Device real = true ->
      NvAPI_D3D12_IsNvShaderExtnOpCodeSupported_hook SupportedOpcode real_fn pDev opCode None
      = mkQueryResult (fst (real_fn real opCode None)) None pDev
          [AddRef real; CALL NvAPI_D3D12_IsNvShaderExtnOpCodeSupported real [opCode];
           Release real]).
Proof.
  intros HQI real. subst real. unfold_device_handlers. rewrite HQI.
  destruct (real_fn (GetReal nvapiDev) opCode None) as [st w] eqn:E.
  split; [reflexivity |]. intros ->. rewrite E. reflexivity.
Qed.

Lemma capability_query_with_null_out_parameter_witness :
  let dev := mkRealDevice 0x100 true in
  q_supported (NvAPI_D3D12_IsNvShaderExtnOpCodeSupported_hook (fun _ => true)
                 (fun _ _ _ => (NVAPI_ERROR, true))
                 (OurWrapper (mkWrapper dev None)) 4 None) = None.
Proof.
  intros dev.
  rewrite (proj2 (capability_query_with_null_out_parameter (fun _ => true)
                    (fun _ _ _ => (NVAPI_ERROR, true))
                    (OurWrapper (mkWrapper dev None)) (mkWrapper dev None) 4 eq_refl)
                 eq_refl).
  reflexivity.
Defined.

(** X10: no handler changes the reference count of any object: the D3D12
    capability query releases the reference its inner interface query took,
    in every outcome, and the other five handlers take none; a capability
    query also hands the device back as it received it. *)
Theorem handlers_keep_reference_counts
    SupportedOpcode (real_query : PFN_IsNvShaderExtnOpCodeSupported)
    (real_slot : PFN_SetNvShaderExtnSlot) (real_space : PFN_SetNvShaderExtnSlotSpace)
    pDev opCode pSupported uavSlot uavSpace obj :
  let q11 := NvAPI_D3D11_IsNvShaderExtnOpCodeSupported_hook
               SupportedOpcode real_query pDev opCode pSupported in
  let q12 := NvAPI_D3D12_IsNvShaderExtnOpCodeSupported_hook
               SupportedOpcode real_query pDev opCode pSupported in
  ref_delta obj (q_trace q11) = 0 /\ ref_delta obj (q_trace q12) = 0
  /\ q_dev q11 = pDev /\ q_dev q12 = pDev
  /\ ref_delta obj (s_trace (NvAPI_D3D11_SetNvShaderExtnSlot_hook real_slot pDev uavSlot)) = 0
  /\ ref_delta obj (s_trace (NvAPI_D3D11_SetNvShaderExtnSlotLocalThread_hook
                               real_slot pDev uavSlot)) = 0
  /\ ref_delta obj (s_trace (NvAPI_D3D12_SetNvShaderExtnSlotSpace_hook
                               real_space pDev uavSlot uavSpace)) = 0
  /\ ref_delta obj (s_trace (NvAPI_D3D12_SetNvShaderExtnSlotSpaceLocalThread_hook
                               real_space pDev uavSlot uavSpace)) = 0.
Proof.
  cbv zeta. unfold_device_handlers.
  destruct (QueryInterface_INVAPID3DDevice pDev) as [w |]; [| cbn; tauto].
  destruct (real_query (GetReal w) opCode pSupported) as [st b].
  destruct (exposes_ID3D12Device (GetReal w)); cbn;
    [destruct (real_query (GetReal w) opCode pSupported) as [st' b']; cbn |];
    repeat split; try reflexivity.
  destruct (bool_decide (GetReal w = obj)); lia.
Qed.

(** ** The encoder hooks *)

Lemma register_hook_delegates vendor UnwrapDXResource encoder params s addr :
  real_nvEncRegisterResource s = VendorFn addr ->
  addr <> NULL ->
  let fn := VendorFn addr in
  exists passed l after,
    NvEncodeAPIRegisterResource_hook vendor UnwrapDXResource encoder params s
    = Some ((vc_status (vendor fn) encoder passed, after), l, s)
    /\ register_calls l = [(fn, encoder, passed)]
    /\ match params with
       | None => passed = None /\ after = None
       | Some p =>
           exists p' a,
             passed = Some p' /\ after = Some a
             /\ rr_version p' = rr_version p /\ resourceType p' = resourceType p
             /\ rr_dummy p' = rr_dummy p /\ rr_more p' = rr_more p
             /\ (resourceToRegister p' = NULL -> resourceToRegister p = NULL)
       end.
Proof.
  intros Hcap Haddr fn. subst fn. apply Z.eqb_neq in Haddr.
  unfold NvEncodeAPIRegisterResource_hook, call_real_nvEncRegisterResource,
    bind, get, emit, ret.
  rewrite Hcap. cbn [is_null]. rewrite Haddr. destruct params as [p |].
  - destruct ((encoder =? NULL)
              || negb (resourceType p =? NV_ENC_INPUT_RESOURCE_TYPE_DIRECTX)).
    + rewrite Hcap. cbn. do 3 eexists. split; [reflexivity |]. split; [reflexivity |].
      do 2 eexists. repeat split; auto.
    + cbn [resourceToRegister set_resourceToRegister].
      destruct (UnwrapDXResource (resourceToRegister p) =? NULL) eqn:Hu; cbn;
        rewrite Hcap; cbn;
        do 3 eexists; (split; [reflexivity |]); (split; [reflexivity |]);
        do 2 eexists; repeat split; cbn; auto.
      intros Hz. rewrite Hz in Hu. discriminate Hu.
  - rewrite Hcap. cbn. do 3 eexists. repeat split.
Qed.

(** X12: while no real registration function has been captured, which is the
    case from [RegisterHooks] until [NvEncodeAPICreateInstance] is hooked
    successfully, the registration handler makes no call into the encoder
    library: it logs an error, returns [NV_ENC_ERR_INVALID_PTR] and leaves
    the argument structure and the singleton as they are. *)
Theorem register_resource_before_hooking
    vendor UnwrapDXResource encoder params s table :
  (is_null (real_nvEncRegisterResource s) = true ->
     NvEncodeAPIRegisterResource_hook vendor UnwrapDXResource encoder params s
     = Some ((NV_ENC_ERR_INVALID_PTR, params), [RDCERR_unhooked], s))
  /\ NvEncodeAPIRegisterResource_hook vendor UnwrapDXResource encoder params
       (RegisterHooks table)
     = Some ((NV_ENC_ERR_INVALID_PTR, params), [RDCERR_unhooked], RegisterHooks table).
Proof.
  split.
  - intros Hnull. unfold NvEncodeAPIRegisterResource_hook, bind, get, emit, ret.
    rewrite Hnull. reflexivity.
  - reflexivity.
Qed.

Lemma register_resource_before_hooking_witness :
  let p := mkRegisterResource 1 NV_ENC_INPUT_RESOURCE_TYPE_DIRECTX [0; 0; 0; 0] 0x5000 [] in
  let s := mkNVHook ∅ (fun _ => 0x7ff000) (VendorFn NULL) 3 in
  NvEncodeAPIRegisterResource_hook
    (fun _ => mkVendorCall (fun _ _ => NV_ENC_SUCCESS) (fun _ q => q))
    (fun h => h + 1) 0x44 (Some p) s
  = Some ((NV_ENC_ERR_INVALID_PTR, Some p), [RDCERR_unhooked], s).
Proof.
  intros p s.
  exact (proj1 (register_resource_before_hooking
                  (fun _ => mkVendorCall (fun _ _ => NV_ENC_SUCCESS) (fun _ q => q))
                  (fun h => h + 1) 0x44 (Some p) s []) eq_refl).
Defined.

(** X13: with a captured real function, a non-null pointer into the encoder
    library, the registration handler delegates exactly once, whatever the
    encoder handle and the structure, and returns the status of that call
    without touching the singleton; a null structure pointer is passed on as
    null, and a structure is passed on with every field but the handle as
    the caller set it and with a null handle only if the caller's handle was
    null. *)
Theorem register_resource_delegates_exactly_once
    vendor UnwrapDXResource encoder params s addr :
  real_nvEncRegisterResource s = VendorFn addr ->
  addr <> NULL ->
  let fn := VendorFn addr in
  exists passed l after,
    NvEncodeAPIRegisterResource_hook vendor UnwrapDXResource encoder params s
    = Some ((vc_status (vendor fn) encoder passed, after), l, s)
    /\ register_calls l = [(fn, encoder, passed)]
    /\ (params = None -> passed = None /\ after = None)
    /\ forall p,
         params = Some p ->
         exists p' a,
           passed = Some p' /\ after = Some a
           /\ rr_version p' = rr_version p /\ resourceType p' = resourceType p
           /\ rr_dummy p' = rr_dummy p /\ rr_more p' = rr_more p
           /\ (resourceToRegister p' = NULL -> resourceToRegister p = NULL).
Proof.
  intros Hcap Haddr fn.
  destruct (register_hook_delegates vendor UnwrapDXResource encoder params s addr
              Hcap Haddr)
    as (passed & l & after & E & Hcalls & Hshape).
  exists passed, l, after. split; [exact E |]. split; [exact Hcalls |].
  destruct params as [p |].
  - split; [discriminate |]. intros p0 Hp. inversion Hp; subst p0. exact Hshape.
  - split; [intros _; exact Hshape | discriminate].
Qed.

Lemma register_resource_delegates_exactly_once_witness :
  let vendor : funcptr -> VendorCall ptr NV_ENC_REGISTER_RESOURCE :=
    fun _ => mkVendorCall (fun _ q => if q is None then 8 else 0) (fun _ q => q) in
  let s := mkNVHook ∅ (fun _ => NULL) (VendorFn 0x7000) 0 in
  exists l,
    NvEncodeAPIRegisterResource_hook vendor (fun _ => NULL) 0x44 None s
    = Some ((8, None), l, s)
    /\ register_calls l = [(VendorFn 0x7000, 0x44, None)].
Proof.
  intros vendor s.
  destruct (register_resource_delegates_exactly_once vendor (fun _ => NULL) 0x44 None s
              0x7000 eq_refl) as (passed & l & after & E & Hcalls & Hnone & _);
    [unfold NULL; lia |].
  destruct (Hnone eq_refl) as [-> ->].
  exists l. split; [exact E | exact Hcalls].
Defined.

(** X14: when the real initializer fails, is given a null table pointer, or
    leaves a null registration pointer in the table, the initialization hook
    patches nothing and captures nothing: it returns the initializer's
    status and the table as the initializer left it. *)
Theorem create_instance_without_patch
    (real_create : VendorCall unit NV_ENCODE_API_FUNCTION_LIST) functions s :
  vc_status real_create tt functions <> NV_ENC_SUCCESS
  \/ functions = None
  \/ (exists f, functions = Some f
                /\ is_null (nvEncRegisterResource (vc_writes real_create tt f)) = true) ->
  NvEncodeAPICreateInstance_hook real_create functions s
  = Some ((vc_status real_create tt functions, vc_writes real_create tt <$> functions),
          [CALL_NvEncodeAPICreateInstance functions], s).
Proof.
  intros Hcase.
  unfold NvEncodeAPICreateInstance_hook, bind, emit, get, when, ret.
  destruct functions as [f |]; [| reflexivity].
  cbn [fmap option_fmap option_map].
  destruct Hcase as [Hst | [Hnone | (f' & Hf & Hnull)]].
  - apply Z.eqb_neq in Hst. rewrite Hst. reflexivity.
  - discriminate Hnone.
  - inversion Hf; subst f'. rewrite Hnull, andb_false_r. reflexivity.
Qed.

Lemma create_instance_without_patch_witness :
  let failing : VendorCall unit NV_ENCODE_API_FUNCTION_LIST :=
    mkVendorCall (fun _ _ => 2) (fun _ f => set_nvEncRegisterResource f (VendorFn 0x7000)) in
  let functions := mkFunctionList 0 0 [] (VendorFn NULL) [] in
  NvEncodeAPICreateInstance_hook failing (Some functions) (RegisterHooks [])
  = Some ((2, Some (set_nvEncRegisterResource functions (VendorFn 0x7000))),
          [CALL_NvEncodeAPICreateInstance (Some functions)], RegisterHooks []).
Proof.
  intros failing functions.
  apply (create_instance_without_patch failing (Some functions) (RegisterHooks [])).
  left. cbn. unfold NV_ENC_SUCCESS. lia.
Defined.

Lemma create_instance_success
    (real_create : VendorCall unit NV_ENCODE_API_FUNCTION_LIST) functions s :
  let table := vc_writes real_create tt functions in
  vc_status real_create tt (Some functions) = NV_ENC_SUCCESS ->
  is_null (nvEncRegisterResource table) = false ->
  NvEncodeAPICreateInstance_hook real_create (Some functions) s
  = Some ((NV_ENC_SUCCESS, Some (set_nvEncRegisterResource table RegisterResourceHook)),
          [CALL_NvEncodeAPICreateInstance (Some functions)]
          ++ (if fl_version table =? expectedVersion then []
              else [RDCWARN_version (fl_version table) expectedVersion])
          ++ (if is_null (real_nvEncRegisterResource s)
                 || bool_decide (real_nvEncRegisterResource s
                                 = nvEncRegisterResource table)
              then [] else [RDCASSERT_failed "real_nvEncRegisterResource"]),
          mkNVHook (nvapi_lookup s) (orig_funcptr s) (nvEncRegisterResource table)
                   (count s)).
Proof.
  intros table Hok Hptr. subst table.
  unfold NvEncodeAPICreateInstance_hook, bind, emit, get, when, ret,
    set_real_nvEncRegisterResource.
  cbn [fmap option_fmap option_map]. rewrite Hok, Hptr. cbn [andb negb Z.eqb NV_ENC_SUCCESS].
  destruct (fl_version (vc_writes real_create tt functions) =? expectedVersion);
    cbn [negb]; cbv beta iota;
    destruct (is_null (real_nvEncRegisterResource s)
              || bool_decide (real_nvEncRegisterResource s
                              = nvEncRegisterResource (vc_writes real_create tt functions)));
    reflexivity.
Qed.

(** X15: once the initialization hook has patched a table in which the real
    initializer had put a non-null pointer into the encoder library, a
    registration made through the patched entry is delegated, exactly once,
    to that very pointer, and the table handed to the application holds the
    local handler in its place. *)
Theorem patched_entry_reaches_the_real_function
    (real_create : VendorCall unit NV_ENCODE_API_FUNCTION_LIST) functions s
    vendor UnwrapDXResource encoder params addr :
  let table := vc_writes real_create tt functions in
  vc_status real_create tt (Some functions) = NV_ENC_SUCCESS ->
  nvEncRegisterResource table = VendorFn addr ->
  addr <> NULL ->
  exists patched l1 s1,
    NvEncodeAPICreateInstance_hook real_create (Some functions) s
    = Some ((NV_ENC_SUCCESS, Some patched), l1, s1)
    /\ nvEncRegisterResource patched = RegisterResourceHook
    /\ exists passed l2 after,
         NvEncodeAPIRegisterResource_hook vendor UnwrapDXResource encoder params s1
         = Some ((vc_status (vendor (VendorFn addr)) encoder passed, after), l2, s1)
         /\ register_calls l2 = [(VendorFn addr, encoder, passed)].
Proof.
  intros table Hok Hptr Haddr.
  assert (Hnn : is_null (nvEncRegisterResource table) = false)
    by (rewrite Hptr; cbn; apply Z.eqb_neq; exact Haddr).
  rewrite (create_instance_success real_create functions s Hok Hnn).
  do 3 eexists. split; [reflexivity |]. split; [reflexivity |].
  match goal with
  | |- context [NvEncodeAPIRegisterResource_hook _ _ _ _ ?s1] =>
      destruct (register_hook_delegates vendor UnwrapDXResource encoder params s1 addr
                  Hptr Haddr)
        as (passed & l2 & after & E & Hcalls & _)
  end.
  exists passed, l2, after. split; [exact E | exact Hcalls].
Qed.

Lemma patched_entry_reaches_the_real_function_witness :
  let real_create : VendorCall unit NV_ENCODE_API_FUNCTION_LIST :=
    mkVendorCall (fun _ _ => NV_ENC_SUCCESS)
                 (fun _ f => set_nvEncRegisterResource f (VendorFn 0x7000)) in
  let functions := mkFunctionList expectedVersion 0 [] (VendorFn NULL) [] in
  let vendor : funcptr -> VendorCall ptr NV_ENC_REGISTER_RESOURCE :=
    fun _ => mkVendorCall (fun _ _ => NV_ENC_SUCCESS) (fun _ q => q) in
  exists patched l1 s1,
    NvEncodeAPICreateInstance_hook real_create (Some functions) (RegisterHooks [])
    = Some ((NV_ENC_SUCCESS, Some patched), l1, s1)
    /\ nvEncRegisterResource patched = RegisterResourceHook
    /\ exists passed l2 after,
         NvEncodeAPIRegisterResource_hook vendor (fun h => h) 0x44 None s1
         = Some ((NV_ENC_SUCCESS, after), l2, s1)
         /\ register_calls l2 = [(VendorFn 0x7000, 0x44, passed)].
Proof.
  intros real_create functions vendor.
  refine (patched_entry_reaches_the_real_function real_create functions (RegisterHooks [])
            vendor (fun h => h) 0x44 None 0x7000 eq_refl eq_refl _).
  unfold NULL; lia.
Defined.

(** X16: of two successful initializations in a row, the first one made
    before anything was captured, the first raises no assertion; the second
    raises the assertion on the captured pointer exactly when the real
    initializer left a different registration pointer than the first time,
    and in either case the pointer of the second table is the one captured
    afterwards. *)
Theorem repeated_initialization
    (create1 create2 : VendorCall unit NV_ENCODE_API_FUNCTION_LIST) f1 f2 s :
  let real1 := nvEncRegisterResource (vc_writes create1 tt f1) in
  let real2 := nvEncRegisterResource (vc_writes create2 tt f2) in
  let assertion := RDCASSERT_failed "real_nvEncRegisterResource" in
  is_null (real_nvEncRegisterResource s) = true ->
  vc_status create1 tt (Some f1) = NV_ENC_SUCCESS -> is_null real1 = false ->
  vc_status create2 tt (Some f2) = NV_ENC_SUCCESS -> is_null real2 = false ->
  exists r1 l1 s1 r2 l2 s2,
    NvEncodeAPICreateInstance_hook create1 (Some f1) s = Some (r1, l1, s1)
    /\ NvEncodeAPICreateInstance_hook create2 (Some f2) s1 = Some (r2, l2, s2)
    /\ ~ In assertion l1
    /\ (In assertion l2 <-> real1 <> real2)
    /\ real_nvEncRegisterResource s1 = real1
    /\ real_nvEncRegisterResource s2 = real2.
Proof.
  intros real1 real2 assertion Hfresh Hok1 Hp1 Hok2 Hp2. subst real1 real2 assertion.
  rewrite (create_instance_success create1 f1 s Hok1 Hp1).
  do 3 eexists.
  rewrite (create_instance_success create2 f2 _ Hok2 Hp2).
  do 3 eexists. split; [reflexivity |]. split; [reflexivity |].
  cbn [real_nvEncRegisterResource]. rewrite Hfresh, Hp1. cbn [orb].
  split; [| split; [| split; reflexivity]].
  - destruct (fl_version (vc_writes create1 tt f1) =? expectedVersion); cbn;
      intros H; repeat (destruct H as [H | H]; [discriminate H |]); exact H.
  - destruct (bool_decide_reflect
                (nvEncRegisterResource (vc_writes create1 tt f1)
                 = nvEncRegisterResource (vc_writes create2 tt f2))) as [E | E];
      destruct (fl_version (vc_writes create2 tt f2) =? expectedVersion); cbn;
      split; intros H; try tauto;
      try (repeat (destruct H as [H | H]; [discriminate H |]); contradiction).
Qed.

Lemma repeated_initialization_witness :
  let create (a : ptr) : VendorCall unit NV_ENCODE_API_FUNCTION_LIST :=
    mkVendorCall (fun _ _ => NV_ENC_SUCCESS)
                 (fun _ f => set_nvEncRegisterResource f (VendorFn a)) in
  let functions := mkFunctionList expectedVersion 0 [] (VendorFn NULL) [] in
  exists r1 l1 s1 r2 l2 s2,
    NvEncodeAPICreateInstance_hook (create 0x7000) (Some functions) (RegisterHooks [])
    = Some (r1, l1, s1)
    /\ NvEncodeAPICreateInstance_hook (create 0x8000) (Some functions) s1
       = Some (r2, l2, s2)
    /\ In (RDCASSERT_failed "real_nvEncRegisterResource") l2
    /\ real_nvEncRegisterResource s2 = VendorFn 0x8000.
Proof.
  intros create functions.
  destruct (repeated_initialization (create 0x7000) (create 0x8000) functions functions
              (RegisterHooks []) eq_refl eq_refl eq_refl eq_refl eq_refl)
    as (r1 & l1 & s1 & r2 & l2 & s2 & E1 & E2 & _ & Hassert & _ & Hcap).
  exists r1, l1, s1, r2, l2, s2.
  split; [exact E1 |]. split; [exact E2 |].
  split; [apply Hassert; cbn; discriminate | exact Hcap].
Defined.


